(** * PSG-Bunker: the Flask front-end [app.py], embedded and verified

    The development follows the layout of [app.py]:
    - a small model of the Python values the handlers manipulate (JSON-like
      values, [int] and [float], [str], the [re] pattern of the roll number);
    - the state the handlers share: the in-memory [login_attempts] table,
      the Flask session and a trace of the calls made to [bunker_mod];
    - the decorators [rate_limit] and [login_required] and the views;
    - the properties of the specification, proved on these definitions.

    Modelling conventions.
    - A Python computation is a function [World -> outcome A * World]: it
      either returns a value or raises, and threads the shared state.
    - An [int] is a [Z]; a [float] is a binary64 number ([PrimFloat.float]).
      The arithmetic of [get_attendance] is Python's: [int] and [float] mix
      by converting the [int] (rounding to nearest, [OverflowError] beyond
      the range), [int / int] is the correctly rounded quotient, and
      [math.ceil] and [int] act on the exact value of a finite float.
    - The clock [time()] and the recorded timestamps are rationals.
    - A [str] is the list of its code points. [str.strip] removes the
      Unicode white space ([is_space]); [\d] is any Unicode decimal digit: the
      table of these digits belongs to the interpreter and is the variable
      [unicode_decimal] of the section [Bunker].
    - One [World] holds the session of the client being served. Flask
      answers an exception that leaves a view: werkzeug's [BadRequest] with
      its own 400 page, any other exception with the 500 handler.
    - [bunker_mod] is not part of the repository file; its four functions
      are variables of the section [Bunker]. *)

From Stdlib Require Import Ascii QArith Qround Lqa.
From Stdlib Require Import Uint63 PrimFloat SpecFloat FloatOps.
From stdpp Require Import gmap strings list fin_maps.

Set Warnings "-register-all,-inexact-float".
Local Open Scope Z_scope.

(** ** Python values *)

(** A [str]: its code points. *)
Abbreviation str := (list N).

(** The [str] a literal of the source denotes. *)
Definition text (s : string) : str := N_of_ascii <$> String.list_ascii_of_string s.

Inductive pyval : Type :=
  | PNone
  | PBool (b : bool)
  | PInt (n : Z)
  | PFloat (x : float)
  | PStr (s : str)
  | PList (l : list pyval)
  | PDict (d : gmap string pyval).

(** The exceptions Flask tells apart: werkzeug's [BadRequest] (an
    [HTTPException], which Flask turns into a response of its own) and every
    other exception, with the text of [str(e)]. An [except Exception] clause
    catches both. *)
Inductive exception : Type :=
  | BadRequest
  | PyError (message : string).

(** The result of running Python code: a value, or an exception. *)
Inductive outcome (A : Type) : Type :=
  | Returns (a : A)
  | Raises (exc : exception).
Arguments Returns {A} a.
Arguments Raises {A} exc.

#[global] Instance outcome_ret : MRet outcome := λ A a, Returns a.

#[global] Instance outcome_bind : MBind outcome :=
  λ A B k m,
    match m with
    | Returns a => k a
    | Raises exc => Raises exc
    end.

(** [bool(v)]: Python truthiness. *)
Definition truthy (v : pyval) : bool :=
  match v with
  | PNone => false
  | PBool b => b
  | PInt n => negb (n =? 0)
  | PFloat x => negb (x =? 0)%float
  | PStr s => match s with [] => false | _ :: _ => true end
  | PList l => match l with [] => false | _ :: _ => true end
  | PDict d => negb (Nat.eqb (size d) 0)
  end.
Arguments truthy : simpl nomatch.

(** [v.get(key, dflt)]: defined on dictionaries only. *)
Definition py_get (v : pyval) (key : string) (dflt : pyval) : outcome pyval :=
  match v with
  | PDict d => Returns (default dflt (d !! key))
  | _ => Raises (PyError "AttributeError: object has no attribute 'get'")
  end.

(** [v[key]] for a string key. *)
Definition py_subscript (v : pyval) (key : string) : outcome pyval :=
  match v with
  | PDict d =>
      match d !! key with
      | Some x => Returns x
      | None => Raises (PyError "KeyError")
      end
  | _ => Raises (PyError "TypeError: indices must be integers or object is not subscriptable")
  end.

(** The elements [for x in v] ranges over. The keys of a dictionary are
    strings; only their number matters below. *)
Definition py_iter (v : pyval) : outcome (list pyval) :=
  match v with
  | PList l => Returns l
  | PDict d => Returns ((λ key, PStr (text key)) <$> (fst <$> map_to_list d))
  | PStr s => Returns ((λ c, PStr [c]) <$> s)
  | _ => Raises (PyError "TypeError: object is not iterable")
  end.

(** [v.copy()] as used on a subject record. *)
Definition py_copy (v : pyval) : outcome (gmap string pyval) :=
  match v with
  | PDict d => Returns d
  | _ => Raises (PyError "AttributeError or TypeError: not a dict")
  end.

(** ** Numbers *)

Inductive number : Type :=
  | Int (n : Z)
  | Float (x : float).

Definition of_number (x : number) : pyval :=
  match x with
  | Int n => PInt n
  | Float x => PFloat x
  end.

(** The values [+] accepts next to an [int]; [bool] is a subclass of [int]. *)
Definition as_number (v : pyval) : outcome number :=
  match v with
  | PBool b => Returns (Int (if b then 1 else 0))
  | PInt n => Returns (Int n)
  | PFloat x => Returns (Float x)
  | _ => Raises (PyError "TypeError: unsupported operand type(s) for +")
  end.

(** The exact value of a finite float. *)
Definition float_value (x : float) : option Q :=
  match Prim2SF x with
  | S754_zero _ => Some 0%Q
  | S754_finite s m e =>
      let n := if s then Z.neg m else Z.pos m in
      Some (if 0 <=? e then inject_Z (n * 2 ^ e) else Qmake n (Z.to_pos (2 ^ (- e))))
  | _ => None
  end.

(** A result of binary64 rounding as Python hands it back: an infinite
    result of an operation on [int]s is an [OverflowError]. *)
Definition finite_or_overflow (x : spec_float) : outcome float :=
  match x with
  | S754_infinity _ => Raises (PyError "OverflowError: int too large for a float")
  | _ => Returns (SF2Prim x)
  end.

(** [float(n)] for an [int]: the nearest binary64, ties to even. *)
Definition int_to_float (n : Z) : outcome float :=
  finite_or_overflow (binary_normalize prec emax n 0 false).

(** The operand of a mixed operation, as a float. *)
Definition to_float (x : number) : outcome float :=
  match x with
  | Int n => int_to_float n
  | Float x => Returns x
  end.

(** An [int] as an exact (unrounded) binary number. *)
Definition exact_int (n : Z) : spec_float :=
  match n with
  | Z0 => S754_zero false
  | Zpos m => S754_finite false m 0
  | Zneg m => S754_finite true m 0
  end.

Definition py_add (a b : number) : outcome number :=
  match a, b with
  | Int x, Int y => Returns (Int (x + y))
  | _, _ => x ← to_float a; y ← to_float b; Returns (Float (x + y))
  end.

Definition py_sub (a b : number) : outcome number :=
  match a, b with
  | Int x, Int y => Returns (Int (x - y))
  | _, _ => x ← to_float a; y ← to_float b; Returns (Float (x - y))
  end.

Definition py_mul (a b : number) : outcome number :=
  match a, b with
  | Int x, Int y => Returns (Int (x * y))
  | _, _ => x ← to_float a; y ← to_float b; Returns (Float (x * y))
  end.

(** [a / b]: always a float. On two [int]s it is the quotient of the exact
    integers, rounded once. *)
Definition py_truediv (a b : number) : outcome number :=
  match a, b with
  | Int x, Int y =>
      if y =? 0 then Raises (PyError "ZeroDivisionError: division by zero")
      else q ← finite_or_overflow (SFdiv prec emax (exact_int x) (exact_int y));
           Returns (Float q)
  | _, _ =>
      x ← to_float a; y ← to_float b;
      if (y =? 0)%float then Raises (PyError "ZeroDivisionError: float division by zero")
      else Returns (Float (x / y))
  end.

(** How a float compares with an [int]: by exact value; [None] for NaN. *)
Definition float_compare_int (x : float) (n : Z) : option comparison :=
  match Prim2SF x with
  | S754_nan => None
  | S754_infinity s => Some (if s then Lt else Gt)
  | _ =>
      match float_value x with
      | Some q => Some (q ?= inject_Z n)%Q
      | None => None
      end
  end.

(** [a < b] *)
Definition py_lt (a b : number) : bool :=
  match a, b with
  | Int x, Int y => x <? y
  | Float x, Float y => (x <? y)%float
  | Float x, Int y =>
      match float_compare_int x y with Some Lt => true | _ => false end
  | Int x, Float y =>
      match float_compare_int y x with Some Gt => true | _ => false end
  end.

Definition Qltb (x y : Q) : bool := negb (Qle_bool y x).

(** [math.ceil(x)] and [int(x)] on the exact value of a finite float. *)
Definition math_ceil (x : Q) : Z := Qceiling x.
Definition py_int (x : Q) : Z := if Qle_bool 0 x then Qfloor x else Qceiling x.

(** The exact value [math.ceil] and [int] work on; they raise on an
    infinity ([OverflowError]) and on NaN ([ValueError]). *)
Definition finite_value (x : number) : outcome Q :=
  match x with
  | Int n => Returns (inject_Z n)
  | Float x =>
      match float_value x with
      | Some q => Returns q
      | None => Raises (PyError "OverflowError or ValueError: cannot convert float to integer")
      end
  end.

Definition math_ceil_of (x : number) : outcome Z := q ← finite_value x; Returns (math_ceil q).
Definition py_int_of (x : number) : outcome Z := q ← finite_value x; Returns (py_int q).

(** [sum(item[key] for item in items)]: starts from the integer 0 and adds
    from left to right; the first failing step raises. *)
Fixpoint sum_from (acc : number) (key : string) (items : list pyval) : outcome number :=
  match items with
  | [] => Returns acc
  | item :: rest =>
      v ← py_subscript item key;
      x ← as_number v;
      acc' ← py_add acc x;
      sum_from acc' key rest
  end.

Definition py_sum (key : string) (items : list pyval) : outcome number :=
  sum_from (Int 0) key items.

(** ** Strings *)

Definition is_alpha (c : N) : bool :=
  (((65 <=? c) && (c <=? 90)) || ((97 <=? c) && (c <=? 122)))%N.

(** [c.isspace()]: the white space of Unicode. *)
Definition is_space (c : N) : bool :=
  (((9 <=? c) && (c <=? 13)) || ((28 <=? c) && (c <=? 32))
   || (c =? 133) || (c =? 160) || (c =? 5760)
   || ((8192 <=? c) && (c <=? 8202))
   || (c =? 8232) || (c =? 8233) || (c =? 8239) || (c =? 8287) || (c =? 12288))%N.

Definition is_newline (c : N) : bool := (c =? 10)%N.

Fixpoint lstrip (s : str) : str :=
  match s with
  | [] => []
  | c :: s' => if is_space c then lstrip s' else s
  end.

Fixpoint rstrip (s : str) : str :=
  match s with
  | [] => []
  | c :: s' =>
      match rstrip s' with
      | [] => if is_space c then [] else [c]
      | t => c :: t
      end
  end.

Definition strip (s : str) : str := rstrip (lstrip s).

(** [v.strip()]: a method of [str] only. *)
Definition py_strip (v : pyval) : outcome str :=
  match v with
  | PStr s => Returns (strip s)
  | _ => Raises (PyError "AttributeError: object has no attribute 'strip'")
  end.

(** ** Regular expressions: the fragment the roll-number pattern uses *)

Inductive regex : Type :=
  | Void
  | Eps
  | Class (p : N → bool)
  | Cat (r1 r2 : regex)
  | Alt (r1 r2 : regex).

(** [r{k}] and [r{0,k}], hence [r{m,n}]. *)
Fixpoint times (k : nat) (r : regex) : regex :=
  match k with
  | O => Eps
  | S k' => Cat r (times k' r)
  end.

Fixpoint upto (k : nat) (r : regex) : regex :=
  match k with
  | O => Eps
  | S k' => Alt Eps (Cat r (upto k' r))
  end.

Definition repeat_range (m n : nat) (r : regex) : regex :=
  Cat (times m r) (upto (n - m) r).

(** [$] without [re.MULTILINE]: the end of the string, or just before a
    newline that ends the string. As the last item of a pattern matched
    against the whole remaining input it consumes that optional newline. *)
Definition dollar : regex := Alt Eps (Class is_newline).

Fixpoint nullable (r : regex) : bool :=
  match r with
  | Void => false
  | Eps => true
  | Class _ => false
  | Cat r1 r2 => nullable r1 && nullable r2
  | Alt r1 r2 => nullable r1 || nullable r2
  end.

Fixpoint deriv (c : N) (r : regex) : regex :=
  match r with
  | Void => Void
  | Eps => Void
  | Class p => if p c then Eps else Void
  | Cat r1 r2 =>
      if nullable r1 then Alt (Cat (deriv c r1) r2) (deriv c r2)
      else Cat (deriv c r1) r2
  | Alt r1 r2 => Alt (deriv c r1) (deriv c r2)
  end.

(** Does the whole of [s] belong to [r]? *)
Fixpoint matches (r : regex) (s : str) : bool :=
  match s with
  | [] => nullable r
  | c :: s' => matches (deriv c r) s'
  end.

(** The language of a regular expression. *)
Inductive lang : regex → str → Prop :=
  | lang_eps : lang Eps []
  | lang_class p c : p c = true → lang (Class p) [c]
  | lang_cat r1 r2 s1 s2 : lang r1 s1 → lang r2 s2 → lang (Cat r1 r2) (s1 ++ s2)
  | lang_alt_l r1 r2 s : lang r1 s → lang (Alt r1 r2) s
  | lang_alt_r r1 r2 s : lang r2 s → lang (Alt r1 r2) s.

(** [re.match(pattern, s)] for a pattern written [^...$]: is there a match
    starting at the beginning of [s]. *)
Definition re_match (pattern : regex) (s : str) : bool := matches pattern s.

(** ** Shared state and the computation monad *)

(** One entry per call made to the external module [bunker_mod]. *)
Inductive extcall : Type :=
  | CallReturnAttendance (rollno : str) (password : pyval)
  | CallGetCoursePlan
  | CallDataJson
  | CallReturnCgpa.

(** [login_attempts] is the module-level [defaultdict(list)];
    [flask_session] is the session of the client being served (Flask keeps
    [session.permanent] under the key [_permanent]); [portal_calls] is the
    trace of calls to [bunker_mod], in order. *)
Record World : Type := mkWorld {
  login_attempts : gmap string (list Q);
  flask_session : gmap string pyval;
  portal_calls : list extcall;
}.

Definition M (A : Type) : Type := World → outcome A * World.

Definition ret {A} (a : A) : M A := λ w, (Returns a, w).

Definition raise {A} (exc : exception) : M A := λ w, (Raises exc, w).

Definition bind {A B} (m : M A) (k : A → M B) : M B :=
  λ w,
    match m w with
    | (Returns a, w') => k a w'
    | (Raises exc, w') => (Raises exc, w')
    end.

Notation "x <- m ;; k" := (bind m (λ x, k))
  (at level 100, m at next level, right associativity).
Notation "m ;; k" := (bind m (λ _, k))
  (at level 100, right associativity).

(** [try: m  except Exception as e: handler e] *)
Definition try_except {A} (m : M A) (handler : exception → M A) : M A :=
  λ w,
    match m w with
    | (Returns a, w') => (Returns a, w')
    | (Raises exc, w') => handler exc w'
    end.

Definition lift {A} (o : outcome A) : M A := λ w, (o, w).

Definition session_contains (key : string) : M bool :=
  λ w, (Returns (bool_decide (is_Some (flask_session w !! key))), w).

Definition session_get (key : string) (dflt : pyval) : M pyval :=
  λ w, (Returns (default dflt (flask_session w !! key)), w).

Definition session_subscript (key : string) : M pyval :=
  λ w,
    match flask_session w !! key with
    | Some v => (Returns v, w)
    | None => (Raises (PyError "KeyError"), w)
    end.

Definition session_set (key : string) (v : pyval) : M unit :=
  λ w, (Returns tt, mkWorld (login_attempts w) (<[key := v]> (flask_session w)) (portal_calls w)).

Definition session_clear : M unit :=
  λ w, (Returns tt, mkWorld (login_attempts w) ∅ (portal_calls w)).

(** Calling into [bunker_mod]: the call is traced, its outcome is the
    external function's. *)
Definition call {A} (c : extcall) (o : outcome A) : M A :=
  λ w, (o, mkWorld (login_attempts w) (flask_session w) (portal_calls w ++ [c])).

(** ** Requests and responses *)

(** [json] is the body of a JSON request as [request.json] parses it,
    [None] when it cannot be parsed; [form] is [request.form], whose values
    are always strings. *)
Record Request : Type := mkRequest {
  remote_addr : string;
  is_json : bool;
  json : option pyval;
  form : gmap string str;
}.

(** [request.json]: werkzeug raises [BadRequest] on a body that is not
    JSON. *)
Definition request_json (request : Request) : outcome pyval :=
  match json request with
  | Some v => Returns v
  | None => Raises BadRequest
  end.

(** [http_exception_page] is the page werkzeug renders for an
    [HTTPException] no handler is registered for. *)
Inductive Body : Type :=
  | jsonify (v : pyval)
  | render_template (name : string) (context : gmap string pyval)
  | redirect (location : string)
  | send_from_directory (directory filename : string)
  | http_exception_page (code : Z).

Record Response : Type := mkResponse {
  body : Body;
  status : Z;
}.

(** A view that returns [jsonify(...)] or [render_template(...)] alone
    answers 200; [redirect] answers 302. *)
Definition ok (b : Body) : Response := mkResponse b 200.
Definition redirect_to (location : string) : Response := mkResponse (redirect location) 302.

(** The reply every failure branch of [rate_limit] and [login] builds:
    a JSON object for a JSON request, the index page otherwise. *)
Definition error_reply (request : Request) (message : pyval) (code : Z) : Response :=
  if is_json request then
    mkResponse (jsonify (PDict (<["ok" := PBool false]> (<["message" := message]> ∅)))) code
  else
    mkResponse (render_template "index.html" (<["error" := message]> ∅)) code.

(** ** The rate limiter *)

Definition attempts_of (table : gmap string (list Q)) (ip : string) : list Q :=
  default [] (table !! ip).

(** [[attempt for attempt in attempts if attempt > now - time_window]] *)
Definition recent_attempts (now time_window : Q) (attempts : list Q) : list Q :=
  List.filter (λ attempt, Qltb (now - time_window) attempt) attempts.

Definition set_attempts (ip : string) (attempts : list Q) (w : World) : World :=
  mkWorld (<[ip := attempts]> (login_attempts w)) (flask_session w) (portal_calls w).

Definition too_many : pyval :=
  PStr (text "Too many login attempts. Please try again later.").

(** The decorator [rate_limit(max_attempts, time_window)] applied to the
    view [f]; [now] is the value [time()] returns for this request. *)
Definition rate_limit (max_attempts : nat) (time_window : Q)
    (f : Request → M Response) (now : Q) (request : Request) : M Response :=
  λ w,
    let ip := remote_addr request in
    let w1 := set_attempts ip (recent_attempts now time_window (attempts_of (login_attempts w) ip)) w in
    if (max_attempts <=? length (attempts_of (login_attempts w1) ip))%nat then
      (Returns (error_reply request too_many 429), w1)
    else
      f request (set_attempts ip (attempts_of (login_attempts w1) ip ++ [now]) w1).

(** The limiter lets the request through: fewer than [max_attempts]
    recorded attempts of the address are inside the window. *)
Definition admitted (max_attempts : nat) (time_window now : Q) (request : Request) (w : World) : Prop :=
  (length (recent_attempts now time_window
             (attempts_of (login_attempts w) (remote_addr request))) < max_attempts)%nat.

(** The state in which an admitted request reaches the view: the pruned
    list of the address, with [now] appended. *)
Definition record_attempt (time_window now : Q) (request : Request) (w : World) : World :=
  set_attempts (remote_addr request)
    (recent_attempts now time_window (attempts_of (login_attempts w) (remote_addr request)) ++ [now]) w.

(** The decorator [login_required]. *)
Definition login_required (f : M Response) : M Response :=
  logged_in <- session_contains "rollno" ;;
  if negb logged_in then ret (redirect_to "/") else f.

(** ** The views *)

(** What [return_attendance] may hand back: an error message, the pair
    [(attendance_raw, session_obj)], or anything else. *)
Inductive attendance_result (attendance_raw session_obj : Type) : Type :=
  | RStr (message : str)
  | RTuple (raw : attendance_raw) (portal : session_obj)
  | ROther.
Arguments RStr {attendance_raw session_obj} message.
Arguments RTuple {attendance_raw session_obj} raw portal.
Arguments ROther {attendance_raw session_obj}.

Definition internal_error : pyval :=
  PStr (text "An internal error occurred. Please try again later.").

(** Line 144 of [get_attendance]. *)
Definition overall_percentage (total_hours total_present : number) : outcome number :=
  if py_lt (Int 0) total_hours then
    quotient ← py_truediv total_present total_hours;
    py_mul quotient (Int 100)
  else Returns (Int 0).

(** Lines 147-152: the pair [(need_days, bunkable_days)]. *)
Definition threshold_days (total_hours total_present overall_percentage : number) :
    outcome (Z * Z) :=
  if py_lt overall_percentage (Int 75) then
    required ← py_mul (Float 0.75%float) total_hours;
    missing ← py_sub required total_present;
    sessions ← py_truediv missing (Float 0.25%float);
    need_days ← math_ceil_of sessions;
    Returns (need_days, 0)
  else
    required ← py_mul (Float 0.75%float) total_hours;
    spare ← py_sub total_present required;
    sessions ← py_truediv spare (Float 0.75%float);
    bunkable_days ← py_int_of sessions;
    Returns (0, bunkable_days).

(** Lines 144-152 together. *)
Definition statistics (total_hours total_present : number) : outcome (number * Z * Z) :=
  percentage ← overall_percentage total_hours total_present;
  days ← threshold_days total_hours total_present percentage;
  Returns (percentage, days.1, days.2).

(** *** The same lines on machine integers

    For integer totals below 2^53, with the primitive conversion
    [of_uint63] and the primitive operations only. *)

Definition float_of_int (n : Z) : option float :=
  if (0 <=? n) && (n <? 2 ^ 53) then Some (PrimFloat.of_uint63 (Uint63.of_Z n)) else None.

Definition binary64_statistics (total_hours total_present : Z) : option (float * Z * Z) :=
  match float_of_int total_hours, float_of_int total_present with
  | Some h, Some p =>
      let overall_percentage := if 0 <? total_hours then (p / h * 100)%float else 0%float in
      if (overall_percentage <? 75)%float then
        match float_value ((0.75 * h - p) / 0.25)%float with
        | Some x => Some (overall_percentage, math_ceil x, 0)
        | None => None
        end
      else
        match float_value ((p - 0.75 * h) / 0.75)%float with
        | Some x => Some (overall_percentage, 0, py_int x)
        | None => None
        end
  | _, _ => None
  end.

(** *** The formulas without rounding

    What lines 144-152 would give in exact arithmetic: the yardstick the
    binary64 results are compared with. *)

Definition exact_percentage (total_hours total_present : Q) : Q :=
  if Qltb 0 total_hours then total_present / total_hours * 100 else 0.

Definition exact_need_days (total_hours total_present : Q) : Z :=
  if Qltb (exact_percentage total_hours total_present) 75
  then math_ceil ((0.75 * total_hours - total_present) / 0.25)
  else 0.

Definition exact_bunkable_days (total_hours total_present : Q) : Z :=
  if Qltb (exact_percentage total_hours total_present) 75
  then 0
  else py_int ((total_present - 0.75 * total_hours) / 0.75).

(** Do the binary64 and the exact computation report the same
    [need_days] and [bunkable_days]? *)
Definition same_days (total_hours total_present : Z) : bool :=
  match binary64_statistics total_hours total_present with
  | Some (_, need, bunkable) =>
      (need =? exact_need_days (inject_Z total_hours) (inject_Z total_present))
      && (bunkable =? exact_bunkable_days (inject_Z total_hours) (inject_Z total_present))
  | None => false
  end.

Definition count_to (n : nat) : list Z := Z.of_nat <$> seq 0 (S n).

(** Does [statistics], on integer totals, report a finite percentage between
    0 and 100, take the branch and report the counters of the exact
    computation? *)
Definition exact_on (total_hours total_present : Z) : bool :=
  match statistics (Int total_hours) (Int total_present) with
  | Returns (percentage, need, bunkable) =>
      match finite_value percentage with
      | Returns value => Qle_bool 0 value && Qle_bool value 100
      | Raises _ => false
      end
      && Bool.eqb (py_lt percentage (Int 75))
           (Qltb (exact_percentage (inject_Z total_hours) (inject_Z total_present)) 75)
      && (need =? exact_need_days (inject_Z total_hours) (inject_Z total_present))
      && (bunkable =? exact_bunkable_days (inject_Z total_hours) (inject_Z total_present))
  | Raises _ => false
  end.

(** The pairs [(total_hours, total_present)] of integers with
    [0 <= total_present <= total_hours <= n]. *)
Definition totals_up_to (n : nat) : list (Z * Z) :=
  h ← count_to n; p ← count_to (Z.to_nat h); [(h, p)].

(** Lines 163-170: the JSON object [get_attendance] answers with. *)
Definition attendance_summary (subjects_with_titles : list pyval)
    (total_hours total_present overall_percentage : number)
    (need_days bunkable_days : Z) : gmap string pyval :=
  <["subjects" := PList subjects_with_titles]>
    (<["total_days" := of_number total_hours]>
       (<["attended_days" := of_number total_present]>
          (<["percentage" := of_number overall_percentage]>
             (<["need_days" := PInt need_days]>
                (<["bunkable_days" := PInt bunkable_days]> ∅))))).

(** [subject.get('course_title', subject.get('name',
    subject.get('original_name', 'Unknown Course')))] *)
Definition display_name (subject : gmap string pyval) : pyval :=
  default (default (default (PStr (text "Unknown Course")) (subject !! "original_name"))
             (subject !! "name"))
    (subject !! "course_title").

(** The loop that builds [subjects_with_titles]. *)
Fixpoint with_titles (items : list pyval) : outcome (list pyval) :=
  match items with
  | [] => Returns []
  | subject :: rest =>
      match py_copy subject with
      | Raises e => Raises e
      | Returns subject_with_title =>
          match with_titles rest with
          | Raises e => Raises e
          | Returns done =>
              Returns (PDict (<["display_name" := display_name subject_with_title]> subject_with_title) :: done)
          end
      end
  end.

(** Lines 66-73 of [login]: the roll number (stripped), the password and
    the remember-me flag, read from the JSON body or from the form. *)
Definition login_fields (request : Request) : outcome (str * pyval * pyval) :=
  if is_json request then
    body ← request_json request;
    value ← py_get body "rollno" (PStr []);
    rollno ← py_strip value;
    body ← request_json request;
    password ← py_get body "password" (PStr []);
    body ← request_json request;
    remember_me ← py_get body "remember_me" (PBool false);
    Returns (rollno, password, remember_me)
  else
    Returns (strip (default [] (form request !! "rollno")),
             PStr (default [] (form request !! "password")),
             PBool (bool_decide (form request !! "remember_me" = Some (text "on")))).

(** A field of the JSON object a response carries. *)
Definition json_field (response : Response) (key : string) : option pyval :=
  match body response with
  | jsonify (PDict d) => d !! key
  | _ => None
  end.

(** The display name of each subject a response lists. *)
Definition display_names (response : Response) : list (option pyval) :=
  match json_field response "subjects" with
  | Some (PList subjects) =>
      (λ subject, match subject with
                  | PDict d => d !! "display_name"
                  | _ => None
                  end) <$> subjects
  | _ => []
  end.

(** The fallback chain in the words of the specification: the value of the
    first of [keys] present in the record, [dflt] when none is. *)
Fixpoint first_present (keys : list string) (subject : gmap string pyval) (dflt : pyval) : pyval :=
  match keys with
  | [] => dflt
  | key :: rest =>
      match subject !! key with
      | Some v => v
      | None => first_present rest subject dflt
      end
  end.

(** What a request submits, in the words of the specification: it is a
    form, or a JSON request whose body is an object in which the roll number
    is a string or absent; [rollno] and [password] are the values it
    carries, the empty string for a missing one. *)
Definition submits (request : Request) (rollno : str) (password : pyval) : Prop :=
  if is_json request then
    ∃ d, json request = Some (PDict d) ∧
         (d !! "rollno" = None ∧ rollno = [] ∨ d !! "rollno" = Some (PStr rollno)) ∧
         password = default (PStr []) (d !! "password")
  else
    rollno = default [] (form request !! "rollno") ∧
    password = PStr (default [] (form request !! "password")).

(** ** Sample inputs

    Concrete requests, sessions and portal behaviours on which the
    properties below are exercised. *)

Definition json_request (fields : gmap string pyval) : Request :=
  mkRequest "203.0.113.7" true (Some (PDict fields)) ∅.

Definition form_request (fields : gmap string str) : Request :=
  mkRequest "203.0.113.7" false None fields.

Definition credentials (rollno password : string) : gmap string pyval :=
  <["rollno" := PStr (text rollno)]> (<["password" := PStr (text password)]> ∅).

Definition subject_record (name course_title : string) (total_hours total_present : Z) : pyval :=
  PDict (<["name" := PStr (text name)]>
           (<["course_title" := PStr (text course_title)]>
              (<["total_hours" := PInt total_hours]>
                 (<["total_present" := PInt total_present]> ∅)))).

(** A record whose two counters are floats. *)
Definition float_record (total_hours total_present : float) : pyval :=
  PDict (<["total_hours" := PFloat total_hours]>
           (<["total_present" := PFloat total_present]> ∅)).

Definition logged_in (records : list pyval) : World :=
  mkWorld ∅ (<["rollno" := PStr (text "21IT066")]> (<["attendance_data" := PList records]> ∅)) [].

Definition fresh : World := mkWorld ∅ ∅ [].

Definition five_attempts : World :=
  mkWorld (<["203.0.113.7" := [710; 760; 820; 900; 990]%Q]> ∅) ∅ [].

(** A portal that accepts every credential and one that refuses them. *)
Definition portal_accepts (rollno : str) (password : pyval) : outcome (attendance_result unit unit) :=
  Returns (RTuple () ()).

Definition portal_refuses (rollno : str) (password : pyval) : outcome (attendance_result unit unit) :=
  Returns (RStr (text "Invalid credentials")).

Definition sample_course_plan (portal : unit) : outcome pyval :=
  Returns (PDict (<["19Z301" := PStr (text "Calculus")]> ∅)).

Definition sample_data_json (raw : unit) (course_plan : pyval) : outcome pyval :=
  Returns (PList [subject_record "19Z301" "Calculus" 40 36]).

Definition sample_cgpa (portal : unit) : outcome pyval :=
  Returns (PDict (<["cgpa" := PFloat 8.5%float]> ∅)).

(** A table of decimal digits: the ASCII digits and the Arabic-Indic ones
    (U+0660 to U+0669). *)
Definition sample_decimal (c : N) : bool :=
  (((48 <=? c) && (c <=? 57)) || ((1632 <=? c) && (c <=? 1641)))%N.

Section Bunker.

(** The table of Unicode decimal digits (category Nd) that [\d] consults:
    it belongs to the interpreter, not to the repository. *)
Variable unicode_decimal : N → bool.

(** [^\d{2}[A-Za-z]{1,4}\d{1,4}$] *)
Definition rollno_pattern : regex :=
  Cat (repeat_range 2 2 (Class unicode_decimal))
    (Cat (repeat_range 1 4 (Class is_alpha))
       (Cat (repeat_range 1 4 (Class unicode_decimal)) dollar)).

(** The roll-number format in the words of the specification: 2 digits,
    then 1 to 4 letters, then 1 to 4 digits. *)
Definition rollno_format (s : str) : Prop :=
  ∃ yy dept num : str,
    s = yy ++ dept ++ num ∧
    length yy = 2%nat ∧ forallb unicode_decimal yy = true ∧
    (1 ≤ length dept ≤ 4)%nat ∧ forallb is_alpha dept = true ∧
    (1 ≤ length num ≤ 4)%nat ∧ forallb unicode_decimal num = true.

(** The external collaborator [bunker_mod]. *)
Context {attendance_raw session_obj : Type}.
Variable return_attendance : str → pyval → outcome (attendance_result attendance_raw session_obj).
Variable get_course_plan : session_obj → outcome pyval.
Variable data_json : attendance_raw → pyval → outcome pyval.
Variable return_cgpa : session_obj → outcome pyval.

Definition home : M Response :=
  ret (ok (render_template "index.html" ∅)).

Definition login (request : Request) : M Response :=
  fields <- lift (login_fields request) ;;
  let '(rollno, password, remember_me) := fields in
  if negb (truthy (PStr rollno)) || negb (truthy password) then
    ret (error_reply request (PStr (text "Roll number and password are required")) 400)
  else if negb (re_match rollno_pattern rollno) then
    ret (error_reply request (PStr (text "Invalid roll number format.")) 400)
  else
    try_except
      (result <- call (CallReturnAttendance rollno password) (return_attendance rollno password) ;;
       match result with
       | RStr message => ret (error_reply request (PStr message) 401)
       | ROther => raise (PyError "TypeError or ValueError: cannot unpack")
       | RTuple raw portal =>
           course_plan <- call CallGetCoursePlan (get_course_plan portal) ;;
           attendance_data <- call CallDataJson (data_json raw course_plan) ;;
           cgpa_data <- call CallReturnCgpa (return_cgpa portal) ;;
           session_set "attendance_data" attendance_data ;;
           session_set "cgpa_data" cgpa_data ;;
           session_set "course_plan" course_plan ;;
           session_set "rollno" (PStr rollno) ;;
           session_set "_permanent" (PBool (truthy remember_me)) ;;
           if is_json request then
             ret (ok (jsonify (PDict (<["ok" := PBool true]>
                                        (<["message" := PStr (text "Login successful")]> ∅)))))
           else
             ret (ok (render_template "dashboard.html"
                        (<["rollno" := PStr rollno]>
                           (<["attendance" := attendance_data]>
                              (<["cgpa" := cgpa_data]> ∅)))))
       end)
      (λ e, ret (error_reply request internal_error 500)).

Definition get_attendance : M Response :=
  login_required
    (try_except
       (attendance_data <- session_get "attendance_data" (PList []) ;;
        if negb (truthy attendance_data) then
          ret (mkResponse (jsonify (PDict (<["error" := PStr (text "No attendance data available")]> ∅))) 404)
        else
          records <- lift (py_iter attendance_data) ;;
          total_hours <- lift (py_sum "total_hours" records) ;;
          total_present <- lift (py_sum "total_present" records) ;;
          percentage <- lift (overall_percentage total_hours total_present) ;;
          days <- lift (threshold_days total_hours total_present percentage) ;;
          subjects_with_titles <- lift (with_titles records) ;;
          ret (ok (jsonify (PDict (attendance_summary subjects_with_titles total_hours
                                     total_present percentage days.1 days.2)))))
       (λ e, ret (mkResponse (jsonify (PDict (<["error" := PStr (text "Failed to fetch attendance data")]> ∅))) 500))).

Definition get_cgpa : M Response :=
  login_required
    (try_except
       (cgpa_data <- session_get "cgpa_data" (PDict ∅) ;;
        ret (ok (jsonify cgpa_data)))
       (λ e, ret (mkResponse (jsonify (PDict (<["error" := PStr (text "Failed to fetch CGPA data")]> ∅))) 500))).

Definition get_courses : M Response :=
  login_required
    (try_except
       (course_plan <- session_get "course_plan" (PDict ∅) ;;
        ret (ok (jsonify course_plan)))
       (λ e, ret (mkResponse (jsonify (PDict (<["error" := PStr (text "Failed to fetch course data")]> ∅))) 500))).

Definition dashboard : M Response :=
  login_required
    (try_except
       (rollno <- session_subscript "rollno" ;;
        attendance <- session_get "attendance_data" (PList []) ;;
        cgpa <- session_get "cgpa_data" (PDict ∅) ;;
        ret (ok (render_template "dashboard.html"
                   (<["rollno" := rollno]> (<["attendance" := attendance]> (<["cgpa" := cgpa]> ∅))))))
       (λ e, ret (redirect_to "/"))).

Definition logout : M Response :=
  session_clear ;;
  ret (redirect_to "/").

Definition favicon : M Response :=
  ret (ok (send_from_directory "static" "favicon.ico")).

Definition health_check : M Response :=
  ret (ok (jsonify (PDict (<["status" := PStr (text "healthy")]>
                             (<["message" := PStr (text "PSG Bunker is running")]> ∅))))).

(** [@app.errorhandler(500)]: what Flask answers when a view raises. *)
Definition internal_server_error : Response :=
  mkResponse (render_template "500.html" ∅) 500.

(** What Flask answers to a [BadRequest]: no handler is registered for 400,
    so the exception is its own response. *)
Definition bad_request : Response :=
  mkResponse (http_exception_page 400) 400.

(** Flask's answer to an exception that leaves a view. *)
Definition handle_exception (exc : exception) : Response :=
  match exc with
  | BadRequest => bad_request
  | PyError _ => internal_server_error
  end.

(** The route table. *)
Inductive Route : Type :=
  | GET_home
  | POST_login
  | GET_attendance
  | GET_cgpa
  | GET_courses
  | GET_dashboard
  | GET_logout
  | GET_favicon
  | GET_health.

#[global] Instance Route_eq_dec : EqDecision Route.
Proof. solve_decision. Defined.

Definition view (route : Route) (now : Q) (request : Request) : M Response :=
  match route with
  | GET_home => home
  | POST_login => rate_limit 5 300 login now request
  | GET_attendance => get_attendance
  | GET_cgpa => get_cgpa
  | GET_courses => get_courses
  | GET_dashboard => dashboard
  | GET_logout => logout
  | GET_favicon => favicon
  | GET_health => health_check
  end.

(** Serving one request: run the view; an exception that leaves the view
    is answered by Flask. *)
Definition serve (route : Route) (now : Q) (request : Request) (w : World) : Response * World :=
  match view route now request w with
  | (Returns response, w') => (response, w')
  | (Raises exc, w') => (handle_exception exc, w')
  end.

(** Serving a sequence of requests of one client, in order; the state left
    by the last one. *)
Fixpoint serve_all (requests : list (Route * Q * Request)) (w : World) : World :=
  match requests with
  | [] => w
  | (route, now, request) :: rest => serve_all rest (serve route now request w).2
  end.

(** Stored attendance data belongs to a logged-in session. *)
Definition session_consistent (w : World) : Prop :=
  is_Some (flask_session w !! "attendance_data") → is_Some (flask_session w !! "rollno").

(** No request of the sequence is a login that succeeds (answers 200). *)
Fixpoint no_login_succeeds (requests : list (Route * Q * Request)) (w : World) : Prop :=
  match requests with
  | [] => True
  | (route, now, request) :: rest =>
      (route = POST_login → status (serve route now request w).1 ≠ 200) ∧
      no_login_succeeds rest (serve route now request w).2
  end.

(** ** Notions used by the further properties *)

(** No address has more than [max_attempts] timestamps recorded. *)
Definition attempts_bounded (max_attempts : nat) (w : World) : Prop :=
  ∀ ip, (length (attempts_of (login_attempts w) ip) ≤ max_attempts)%nat.

(** The routes decorated with [login_required]. *)
Definition gated (route : Route) : bool :=
  match route with
  | GET_attendance | GET_cgpa | GET_courses | GET_dashboard => true
  | _ => false
  end.

(** A record [sum(subject[key] ...)] can go through: a dictionary whose
    [key] holds a number. *)
Definition summable (key : string) (v : pyval) : Prop :=
  ∃ d x n, v = PDict d ∧ d !! key = Some x ∧ as_number x = Returns n.

(** The sum of a list of integers. *)
Definition total (l : list Z) : Z := foldr Z.add 0 l.

(** The calls made to [bunker_mod] between two states. *)
Definition new_calls (before after : World) : list extcall :=
  drop (length (portal_calls before)) (portal_calls after).

(** A client at another address. *)
Definition other_client : Request :=
  mkRequest "198.51.100.2" true (Some (PDict (credentials "21IT066" "secret"))) ∅.

(** * Properties *)

(** ** Strings *)

(** [rstrip] leaves no white space at the end. *)
Lemma rstrip_last (s u : str) (c : N) :
  rstrip s = u ++ [c] → is_space c = false.
Proof.
  revert u. induction s as [|a s IH]; intros u; simpl.
  - intros H. symmetry in H. by apply app_eq_nil in H as [_ H].
  - destruct (rstrip s) as [|b t] eqn:Hr.
    + destruct (is_space a) eqn:Ha.
      * intros H. symmetry in H. by apply app_eq_nil in H as [_ H].
      * destruct u as [|x u]; simpl; intros H.
        -- by inversion H; subst.
        -- inversion H as [[Hx Hu]]. symmetry in Hu.
           by apply app_eq_nil in Hu as [_ Hu].
    + destruct u as [|x u]; simpl; intros H.
      * inversion H.
      * inversion H as [[Hx Hu]]. by apply (IH u).
Qed.

Lemma strip_last (s u : str) (c : N) :
  strip s = u ++ [c] → is_space c = false.
Proof. apply rstrip_last. Qed.

(** ** The matcher decides the language of the pattern *)

Lemma lang_cat_inv (r1 r2 : regex) (s : str) :
  lang (Cat r1 r2) s ↔ ∃ s1 s2, s = s1 ++ s2 ∧ lang r1 s1 ∧ lang r2 s2.
Proof.
  split.
  - intros H. inversion H; subst. eauto.
  - intros (s1 & s2 & -> & H1 & H2). by constructor.
Qed.

Lemma lang_alt_inv (r1 r2 : regex) (s : str) :
  lang (Alt r1 r2) s ↔ lang r1 s ∨ lang r2 s.
Proof.
  split.
  - intros H. inversion H; subst; auto.
  - intros [H|H]; [by apply lang_alt_l | by apply lang_alt_r].
Qed.

Lemma lang_eps_inv (s : str) : lang Eps s ↔ s = [].
Proof. split; [intros H; by inversion H | intros ->; constructor]. Qed.

Lemma lang_class_inv (p : N → bool) (s : str) :
  lang (Class p) s ↔ ∃ c, s = [c] ∧ p c = true.
Proof.
  split.
  - intros H. inversion H; subst. eauto.
  - intros (c & -> & H). by constructor.
Qed.

Lemma lang_void_inv (s : str) : ¬ lang Void s.
Proof. intros H. inversion H. Qed.

Lemma nullable_spec (r : regex) : nullable r = true ↔ lang r [].
Proof.
  induction r as [| |p|r1 IH1 r2 IH2|r1 IH1 r2 IH2]; simpl.
  - split; [done | intros H; by apply lang_void_inv in H].
  - split; [constructor | done].
  - split; [done | intros H; apply lang_class_inv in H as (c & H & _); discriminate].
  - rewrite andb_true_iff, IH1, IH2, lang_cat_inv. split.
    + intros [H1 H2]. by exists [], [].
    + intros (s1 & s2 & Hs & H1 & H2). symmetry in Hs.
      apply app_eq_nil in Hs as [-> ->]. done.
  - by rewrite orb_true_iff, IH1, IH2, lang_alt_inv.
Qed.

Lemma deriv_spec (c : N) (r : regex) (s : str) :
  lang (deriv c r) s ↔ lang r (c :: s).
Proof.
  revert s. induction r as [| |p|r1 IH1 r2 IH2|r1 IH1 r2 IH2]; intros s; simpl.
  - split; intros H; by apply lang_void_inv in H.
  - split; intros H; [by apply lang_void_inv in H | by apply lang_eps_inv in H].
  - rewrite lang_class_inv. destruct (p c) eqn:Hp.
    + rewrite lang_eps_inv. split.
      * intros ->. eauto.
      * intros (c' & H & _). by inversion H.
    + split; [intros H; by apply lang_void_inv in H|].
      intros (c' & H & Hp'). inversion H; subst. congruence.
  - assert (Hcat : lang (Cat (deriv c r1) r2) s ↔
              ∃ s1 s2, s = s1 ++ s2 ∧ lang r1 (c :: s1) ∧ lang r2 s2).
    { rewrite lang_cat_inv. by setoid_rewrite IH1. }
    rewrite (lang_cat_inv r1 r2 (c :: s)).
    destruct (nullable r1) eqn:Hn.
    + rewrite lang_alt_inv, Hcat, IH2. split.
      * intros [(s1 & s2 & -> & H1 & H2)|H2].
        -- by exists (c :: s1), s2.
        -- exists [], (c :: s). split; [done|]. split; [|done].
           by apply nullable_spec.
      * intros (s1 & s2 & Hs & H1 & H2). destruct s1 as [|a s1].
        -- simpl in Hs. subst s2. by right.
        -- simpl in Hs. inversion Hs; subst. left. eauto.
    + rewrite Hcat. split.
      * intros (s1 & s2 & -> & H1 & H2). by exists (c :: s1), s2.
      * intros (s1 & s2 & Hs & H1 & H2). destruct s1 as [|a s1].
        -- apply nullable_spec in H1. congruence.
        -- simpl in Hs. inversion Hs; subst. eauto.
  - by rewrite !lang_alt_inv, IH1, IH2.
Qed.

Lemma matches_spec (r : regex) (s : str) : matches r s = true ↔ lang r s.
Proof.
  revert r. induction s as [|c s IH]; intros r; simpl.
  - apply nullable_spec.
  - by rewrite IH, deriv_spec.
Qed.

(** ** Counted repetition of a character class *)

Lemma lang_times_class (p : N → bool) (k : nat) (s : str) :
  lang (times k (Class p)) s ↔ length s = k ∧ forallb p s = true.
Proof.
  revert s. induction k as [|k IH]; intros s; simpl.
  - rewrite lang_eps_inv. split; [by intros -> | intros [H _]; by destruct s].
  - rewrite lang_cat_inv. split.
    + intros (s1 & s2 & -> & H1 & H2).
      apply lang_class_inv in H1 as (c & -> & Hc). apply IH in H2 as [Hl Ha].
      simpl. by rewrite Hl, Hc, Ha.
    + intros [Hl Ha]. destruct s as [|c s]; [done|]. simpl in *.
      apply andb_true_iff in Ha as [Hc Ha].
      exists [c], s. split; [done|]. split.
      * by constructor.
      * apply IH. split; [lia | done].
Qed.

Lemma lang_upto_class (p : N → bool) (k : nat) (s : str) :
  lang (upto k (Class p)) s ↔ (length s ≤ k)%nat ∧ forallb p s = true.
Proof.
  revert s. induction k as [|k IH]; intros s; simpl.
  - rewrite lang_eps_inv. split; [by intros -> |].
    intros [H _]. destruct s; [done | simpl in H; lia].
  - rewrite lang_alt_inv, lang_eps_inv, lang_cat_inv. split.
    + intros [-> | (s1 & s2 & -> & H1 & H2)]; [simpl; split; [lia | done] |].
      apply lang_class_inv in H1 as (c & -> & Hc). apply IH in H2 as [Hl Ha].
      simpl. rewrite Hc, Ha. split; [lia | done].
    + intros [Hl Ha]. destruct s as [|c s]; [by left | right]. simpl in *.
      apply andb_true_iff in Ha as [Hc Ha].
      exists [c], s. split; [done|]. split.
      * by constructor.
      * apply IH. split; [lia | done].
Qed.

Lemma lang_repeat_range_class (p : N → bool) (m n : nat) (s : str) :
  (m ≤ n)%nat →
  lang (repeat_range m n (Class p)) s ↔
  (m ≤ length s ≤ n)%nat ∧ forallb p s = true.
Proof.
  intros Hmn. unfold repeat_range. rewrite lang_cat_inv. split.
  - intros (s1 & s2 & -> & H1 & H2).
    apply lang_times_class in H1 as [Hl1 Ha1]. apply lang_upto_class in H2 as [Hl2 Ha2].
    rewrite length_app, forallb_app, Ha1, Ha2. split; [lia | done].
  - intros [Hl Ha]. rewrite <- (take_drop m s) in Ha. rewrite forallb_app in Ha.
    apply andb_true_iff in Ha as [Ha1 Ha2].
    exists (take m s), (drop m s). split; [by rewrite take_drop|]. split.
    + apply lang_times_class. split; [|done]. rewrite length_take. lia.
    + apply lang_upto_class. split; [|done]. rewrite length_drop. lia.
Qed.

(** ** The roll-number pattern *)

Lemma lang_dollar (s : str) :
  lang dollar s ↔ s = [] ∨ ∃ c, s = [c] ∧ is_newline c = true.
Proof. unfold dollar. by rewrite lang_alt_inv, lang_eps_inv, lang_class_inv. Qed.

Lemma is_newline_space (c : N) : is_newline c = true → is_space c = true.
Proof.
  unfold is_newline, is_space. intros H. apply N.eqb_eq in H. rewrite H. reflexivity.
Qed.

Lemma lang_rollno_pattern (s : str) :
  lang rollno_pattern s ↔
  ∃ roll tail, s = roll ++ tail ∧ rollno_format roll ∧ lang dollar tail.
Proof.
  unfold rollno_pattern, rollno_format. split.
  - intros H.
    apply lang_cat_inv in H as (yy & s1 & -> & Hyy & H).
    apply lang_cat_inv in H as (dept & s2 & -> & Hdept & H).
    apply lang_cat_inv in H as (num & tail & -> & Hnum & Htail).
    apply lang_repeat_range_class in Hyy as [? ?]; [|lia].
    apply lang_repeat_range_class in Hdept as [? ?]; [|lia].
    apply lang_repeat_range_class in Hnum as [? ?]; [|lia].
    exists (yy ++ dept ++ num), tail. split; [by rewrite <- !app_assoc|].
    split; [|done]. exists yy, dept, num. repeat split; (done || lia).
  - intros (roll & tail & -> & (yy & dept & num & -> & ? & ? & ? & ? & ? & ?) & Htail).
    rewrite <- !app_assoc.
    apply lang_cat; [apply lang_repeat_range_class; [lia|]; split; [lia | done]|].
    apply lang_cat; [apply lang_repeat_range_class; [lia|]; split; [lia | done]|].
    apply lang_cat; [apply lang_repeat_range_class; [lia|]; split; [lia | done]|].
    done.
Qed.

(** On a stripped string, [re.match] with the pattern succeeds exactly on
    the strings of the documented format. *)
Lemma re_match_rollno_strip (t : str) :
  re_match rollno_pattern (strip t) = true ↔ rollno_format (strip t).
Proof.
  unfold re_match. rewrite matches_spec, lang_rollno_pattern. split.
  - intros (roll & tail & Hs & Hroll & Htail).
    apply lang_dollar in Htail as [-> | (c & -> & Hc)].
    + rewrite app_nil_r in Hs. by rewrite Hs.
    + apply strip_last in Hs. apply is_newline_space in Hc. congruence.
  - intros H. exists (strip t), []. rewrite app_nil_r.
    split; [done|]. split; [done|]. apply lang_dollar. by left.
Qed.

(** Without stripping, the pattern also accepts one trailing newline. *)
Lemma re_match_rollno (s : str) :
  re_match rollno_pattern s = true ↔
  rollno_format s ∨ ∃ roll, rollno_format roll ∧ s = roll ++ [10%N].
Proof.
  unfold re_match. rewrite matches_spec, lang_rollno_pattern. split.
  - intros (roll & tail & -> & Hroll & Htail).
    apply lang_dollar in Htail as [-> | (c & -> & Hc)].
    + left. by rewrite app_nil_r.
    + right. exists roll. split; [done|].
      unfold is_newline in Hc. apply N.eqb_eq in Hc. by rewrite Hc.
  - intros [H | (roll & H & ->)].
    + exists s, []. rewrite app_nil_r. split; [done|]. split; [done|].
      apply lang_dollar. by left.
    + exists roll, [10%N]. split; [done|]. split; [done|].
      apply lang_dollar. right. by eexists.
Qed.

Lemma rollno_format_re_match (s : str) :
  rollno_format s → re_match rollno_pattern s = true.
Proof. intros H. apply re_match_rollno. by left. Qed.

(** A string is falsy exactly when it is empty. *)
Lemma truthy_str (s : str) : truthy (PStr s) = false ↔ s = [].
Proof. destruct s; split; done. Qed.

Lemma truthy_str_true (s : str) : s ≠ [] → truthy (PStr s) = true.
Proof. by destruct s. Qed.

(** ** The rate limiter *)

Lemma Qltb_lt (x y : Q) : Qltb x y = true ↔ (x < y)%Q.
Proof.
  unfold Qltb. rewrite negb_true_iff, <- not_true_iff_false, Qle_bool_iff.
  split; [apply Qnot_le_lt | apply Qlt_not_le].
Qed.

Lemma Qltb_ge (x y : Q) : Qltb x y = false ↔ (y <= x)%Q.
Proof. unfold Qltb. by rewrite negb_false_iff, Qle_bool_iff. Qed.

Lemma attempts_of_insert (table : gmap string (list Q)) (ip : string) (l : list Q) :
  attempts_of (<[ip := l]> table) ip = l.
Proof. unfold attempts_of. by rewrite lookup_insert_eq. Qed.

Lemma set_attempts_twice (ip : string) (l1 l2 : list Q) (w : World) :
  set_attempts ip l2 (set_attempts ip l1 w) = set_attempts ip l2 w.
Proof. unfold set_attempts. simpl. by rewrite insert_insert_eq. Qed.

Lemma recent_attempts_cons (now window t : Q) (attempts : list Q) :
  recent_attempts now window (t :: attempts) =
  if Qltb (now - window) t then t :: recent_attempts now window attempts
  else recent_attempts now window attempts.
Proof. reflexivity. Qed.

(** Timestamps inside the window survive the pruning. *)
Lemma recent_attempts_sublist (now window : Q) (ts attempts : list Q) :
  ts `sublist_of` attempts →
  Forall (λ t, (now - window < t)%Q) ts →
  (length ts ≤ length (recent_attempts now window attempts))%nat.
Proof.
  intros Hsub. induction Hsub as [|t ts attempts Hsub IH|t ts attempts Hsub IH]; intros Hin.
  - simpl. lia.
  - inversion Hin as [|? ? Ht Hts]; subst.
    apply Qltb_lt in Ht. rewrite recent_attempts_cons, Ht.
    specialize (IH Hts). simpl. lia.
  - specialize (IH Hin). rewrite recent_attempts_cons.
    destruct (Qltb (now - window) t); simpl; lia.
Qed.

(** The decorator, with the table read back after each update. *)
Lemma rate_limit_unfold (max_attempts : nat) (time_window : Q)
    (f : Request → M Response) (now : Q) (request : Request) (w : World) :
  rate_limit max_attempts time_window f now request w =
  if (max_attempts <=?
        length (recent_attempts now time_window
                  (attempts_of (login_attempts w) (remote_addr request))))%nat
  then (Returns (error_reply request too_many 429),
        set_attempts (remote_addr request)
          (recent_attempts now time_window
             (attempts_of (login_attempts w) (remote_addr request))) w)
  else f request
         (set_attempts (remote_addr request)
            (recent_attempts now time_window
               (attempts_of (login_attempts w) (remote_addr request)) ++ [now]) w).
Proof.
  unfold rate_limit. cbv zeta. cbn [login_attempts set_attempts].
  by rewrite attempts_of_insert, set_attempts_twice.
Qed.

Lemma status_error_reply (request : Request) (message : pyval) (code : Z) :
  status (error_reply request message code) = code.
Proof. unfold error_reply. by destruct (is_json request). Qed.

(** The reply of a failure branch, written out. *)
Lemma error_reply_unfold (request : Request) (message : pyval) (code : Z) :
  error_reply request message code =
  mkResponse
    (if is_json request
     then jsonify (PDict (<["ok" := PBool false]> (<["message" := message]> ∅)))
     else render_template "index.html" (<["error" := message]> ∅))
    code.
Proof. unfold error_reply. by destruct (is_json request). Qed.

Ltac run :=
  unfold bind, ret, raise, lift, try_except, call, session_set, session_get,
    session_contains, session_subscript, session_clear in *; simpl in *.

(** The view [login] never answers 429 and leaves [login_attempts] alone. *)
Lemma login_effect (request : Request) (w : World) :
  login_attempts (login request w).2 = login_attempts w ∧
  ∀ response, (login request w).1 = Returns response → status response ≠ 429.
Proof.
  unfold login. run.
  destruct (login_fields request) as [[[rollno password] remember_me]|e]; [|by split].
  destruct (negb (truthy (PStr rollno)) || negb (truthy password)).
  { split; [done|]. intros r [= <-]. by rewrite status_error_reply. }
  destruct (negb (re_match rollno_pattern rollno)).
  { split; [done|]. intros r [= <-]. by rewrite status_error_reply. }
  simpl.
  destruct (return_attendance rollno password) as [[message|raw portal|]|e]; simpl;
    try (split; [done|]; intros r [= <-]; by rewrite status_error_reply).
  destruct (get_course_plan portal) as [course_plan|e]; simpl;
    try (split; [done|]; intros r [= <-]; by rewrite status_error_reply).
  destruct (data_json raw course_plan) as [attendance_data|e]; simpl;
    try (split; [done|]; intros r [= <-]; by rewrite status_error_reply).
  destruct (return_cgpa portal) as [cgpa_data|e]; simpl;
    try (split; [done|]; intros r [= <-]; by rewrite status_error_reply).
  destruct (is_json request); (split; [done|]); by intros r [= <-].
Qed.

(** C1: when five attempts recorded for the caller's address lie inside the
    trailing 300-second window, the next POST to /login is answered 429 with
    the message "Too many login attempts. Please try again later." (in a
    JSON object for a JSON request, on the index page otherwise), whatever
    the request carries and whatever the portal would say; nothing is
    recorded beyond the pruned list, the session and the portal are not
    touched. *)
Theorem login_rate_limited (now : Q) (request : Request) (w : World) (ts : list Q) :
  length ts = 5%nat →
  ts `sublist_of` attempts_of (login_attempts w) (remote_addr request) →
  Forall (λ t, (now - 300 < t)%Q) ts →
  serve POST_login now request w =
    (mkResponse
       (if is_json request
        then jsonify (PDict (<["ok" := PBool false]>
               (<["message" :=
                    PStr (text "Too many login attempts. Please try again later.")]> ∅)))
        else render_template "index.html"
               (<["error" :=
                    PStr (text "Too many login attempts. Please try again later.")]> ∅))
       429,
     set_attempts (remote_addr request)
       (recent_attempts now 300 (attempts_of (login_attempts w) (remote_addr request))) w)
  ∧ status (serve POST_login now request w).1 = 429.
Proof.
  intros Hlen Hsub Hin.
  pose proof (recent_attempts_sublist now 300 ts _ Hsub Hin) as Hrecent.
  assert (Hserve : serve POST_login now request w =
    (error_reply request too_many 429,
     set_attempts (remote_addr request)
       (recent_attempts now 300 (attempts_of (login_attempts w) (remote_addr request))) w)).
  { unfold serve, view. rewrite rate_limit_unfold.
    destruct (Nat.leb_spec 5
      (length (recent_attempts now 300 (attempts_of (login_attempts w) (remote_addr request)))))
      as [_|Hlt]; [done | lia]. }
  rewrite Hserve, error_reply_unfold. done.
Qed.

(** C10: a POST to /login that is not answered 429 has appended the current
    time to the caller's pruned attempt list before the view [login] runs,
    whatever the view then answers; afterwards that list holds at most five
    timestamps. *)
Theorem login_attempt_recorded (now : Q) (request : Request) (w : World) :
  status (serve POST_login now request w).1 ≠ 429 →
  let ip := remote_addr request in
  let recent := recent_attempts now 300 (attempts_of (login_attempts w) ip) in
  serve POST_login now request w =
    match login request (set_attempts ip (recent ++ [now]) w) with
    | (Returns response, w') => (response, w')
    | (Raises exc, w') => (handle_exception exc, w')
    end
  ∧ attempts_of (login_attempts (serve POST_login now request w).2) ip = recent ++ [now]
  ∧ (length (attempts_of (login_attempts (serve POST_login now request w).2) ip) ≤ 5)%nat.
Proof.
  intros Hstatus ip recent.
  unfold serve, view in *. rewrite rate_limit_unfold in *.
  fold ip recent in Hstatus |- *.
  destruct (Nat.leb_spec 5 (length recent)) as [Hge|Hlt].
  { simpl in Hstatus. by rewrite status_error_reply in Hstatus. }
  split; [done|].
  pose proof (login_effect request (set_attempts ip (recent ++ [now]) w)) as [Hkeep _].
  destruct (login request (set_attempts ip (recent ++ [now]) w)) as [[response|e] w'];
    simpl in *; rewrite Hkeep, attempts_of_insert, length_app; simpl; (split; [done | lia]).
Qed.

(** ** The login view *)

(** An admitted POST to /login runs the view on the state with the attempt
    recorded. *)
Lemma serve_login_admitted (now : Q) (request : Request) (w : World) :
  admitted 5 300 now request w →
  serve POST_login now request w =
    match login request (record_attempt 300 now request w) with
    | (Returns response, w') => (response, w')
    | (Raises exc, w') => (handle_exception exc, w')
    end.
Proof.
  unfold admitted, serve, view, record_attempt. intros Hlt. rewrite rate_limit_unfold.
  destruct (Nat.leb_spec 5 (length (recent_attempts now 300
    (attempts_of (login_attempts w) (remote_addr request))))) as [Hge|_]; [lia | done].
Qed.

(** How the fields are read from a form, and from a JSON body that is an
    object. *)
Lemma login_fields_form (request : Request) :
  is_json request = false →
  login_fields request =
    Returns (strip (default [] (form request !! "rollno")),
             PStr (default [] (form request !! "password")),
             PBool (bool_decide (form request !! "remember_me" = Some (text "on")))).
Proof. unfold login_fields. by intros ->. Qed.

Lemma login_fields_json (request : Request) (d : gmap string pyval) :
  is_json request = true →
  json request = Some (PDict d) →
  login_fields request =
    match default (PStr []) (d !! "rollno") with
    | PStr s =>
        Returns (strip s, default (PStr []) (d !! "password"),
                 default (PBool false) (d !! "remember_me"))
    | _ => Raises (PyError "AttributeError: object has no attribute 'strip'")
    end.
Proof.
  unfold login_fields, request_json. intros -> ->. simpl.
  by destruct (default (PStr []) (d !! "rollno")).
Qed.

(** The roll number [login] works with is always a stripped string. *)
Lemma login_fields_stripped (request : Request) (rollno : str) (password remember_me : pyval) :
  login_fields request = Returns (rollno, password, remember_me) →
  ∃ t, rollno = strip t.
Proof.
  destruct (is_json request) eqn:Hjson.
  - unfold login_fields, request_json. rewrite Hjson.
    destruct (json request) as [v|]; simpl; [|done].
    destruct v as [| | | | | |d]; simpl; try done.
    destruct (default (PStr []) (d !! "rollno")); simpl; try done.
    intros [= <- _ _]. eauto.
  - rewrite login_fields_form by done. intros [= <- _ _]. eauto.
Qed.

(** The fields of a request can be read unless it is a JSON request whose
    body cannot be parsed or is not an object, or whose roll number is not
    a string. *)
Lemma login_fields_returns (request : Request) :
  (∃ fields, login_fields request = Returns fields) ↔
  is_json request = false ∨
  ∃ d, json request = Some (PDict d) ∧
       (d !! "rollno" = None ∨ ∃ s, d !! "rollno" = Some (PStr s)).
Proof.
  destruct (is_json request) eqn:Hjson; [|rewrite login_fields_form by done; split; eauto].
  split.
  - intros [fields H]. right. unfold login_fields, request_json in H. rewrite Hjson in H.
    destruct (json request) as [v|]; simpl in H; [|done].
    destruct v as [| | | | | |d]; simpl in H; try done.
    exists d. split; [done|].
    destruct (d !! "rollno") as [v|]; [|by left]. right.
    destruct v; simpl in H; try done. eauto.
  - intros [? | (d & Hd & [Hnone | [s Hs]])]; [done| |];
      rewrite (login_fields_json _ d Hjson Hd).
    + rewrite Hnone. simpl. eauto.
    + rewrite Hs. simpl. eauto.
Qed.

(** Reading the fields raises [BadRequest] only on a JSON request whose
    body cannot be parsed. *)
Lemma login_fields_bad_request (request : Request) :
  login_fields request = Raises BadRequest →
  is_json request = true ∧ json request = None.
Proof.
  unfold login_fields, request_json. destruct (is_json request); [|done].
  destruct (json request) as [v|]; [|done]. simpl.
  destruct v as [| | | | | |d]; simpl; try done.
  destruct (default (PStr []) (d !! "rollno")); simpl; done.
Qed.

(** What [submits] says is what [login] reads. *)
Lemma login_fields_submits (request : Request) (rollno : str) (password : pyval) :
  submits request rollno password →
  ∃ remember_me, login_fields request = Returns (strip rollno, password, remember_me).
Proof.
  unfold submits. destruct (is_json request) eqn:Hjson.
  - intros (d & Hd & Hroll & ->). rewrite (login_fields_json _ d Hjson Hd).
    destruct Hroll as [[-> ->] | ->]; simpl; eauto.
  - intros [-> ->]. rewrite login_fields_form by done. eauto.
Qed.

(** C7, as the code has it: a POST to /login that the limiter admits, sent
    as a form or as a JSON object whose roll number is a string or absent,
    where the roll number (after stripping) or the password is empty or
    absent, is answered 400 with the message "Roll number and password are
    required" (in a JSON object for a JSON request, on the index page
    otherwise); the session and the portal are not touched. *)
Theorem login_requires_fields (now : Q) (request : Request) (w : World)
    (rollno : str) (password : pyval) :
  admitted 5 300 now request w →
  submits request rollno password →
  strip rollno = [] ∨ truthy password = false →
  serve POST_login now request w =
    (mkResponse
       (if is_json request
        then jsonify (PDict (<["ok" := PBool false]>
               (<["message" := PStr (text "Roll number and password are required")]> ∅)))
        else render_template "index.html"
               (<["error" := PStr (text "Roll number and password are required")]> ∅))
       400,
     record_attempt 300 now request w)
  ∧ status (serve POST_login now request w).1 = 400
  ∧ flask_session (serve POST_login now request w).2 = flask_session w
  ∧ portal_calls (serve POST_login now request w).2 = portal_calls w.
Proof.
  intros Hadm Hsub Hmissing.
  destruct (login_fields_submits _ _ _ Hsub) as [remember_me Hfields].
  assert (Hserve : serve POST_login now request w =
    (error_reply request (PStr (text "Roll number and password are required")) 400,
     record_attempt 300 now request w)).
  { rewrite (serve_login_admitted _ _ _ Hadm). unfold login. run. rewrite Hfields.
    destruct Hmissing as [-> | ->]; [done|]. by rewrite orb_true_r. }
  rewrite Hserve, error_reply_unfold. done.
Qed.

(** C3, as the code has it: a POST to /login that the limiter admits, sent
    as a form or as a JSON object whose roll number is a string, with a
    password and a roll number that is not empty once stripped: when the
    stripped roll number is not of the form 2 digits, 1 to 4 letters, 1 to 4
    digits, the answer is 400 with the message "Invalid roll number
    format."; [bunker_mod] is not called and the session is not touched. *)
Theorem login_rejects_malformed_rollno (now : Q) (request : Request) (w : World)
    (rollno : str) (password : pyval) :
  admitted 5 300 now request w →
  submits request rollno password →
  strip rollno ≠ [] →
  truthy password = true →
  ¬ rollno_format (strip rollno) →
  serve POST_login now request w =
    (mkResponse
       (if is_json request
        then jsonify (PDict (<["ok" := PBool false]>
               (<["message" := PStr (text "Invalid roll number format.")]> ∅)))
        else render_template "index.html"
               (<["error" := PStr (text "Invalid roll number format.")]> ∅))
       400,
     record_attempt 300 now request w)
  ∧ status (serve POST_login now request w).1 = 400
  ∧ portal_calls (serve POST_login now request w).2 = portal_calls w
  ∧ flask_session (serve POST_login now request w).2 = flask_session w.
Proof.
  intros Hadm Hsub Hroll Hpass Hformat.
  destruct (login_fields_submits _ _ _ Hsub) as [remember_me Hfields].
  assert (Hserve : serve POST_login now request w =
    (error_reply request (PStr (text "Invalid roll number format.")) 400,
     record_attempt 300 now request w)).
  { rewrite (serve_login_admitted _ _ _ Hadm). unfold login. run. rewrite Hfields.
    rewrite (truthy_str_true _ Hroll), Hpass. simpl.
    destruct (re_match rollno_pattern (strip rollno)) eqn:Hmatch; [|done].
    apply re_match_rollno_strip in Hmatch. done. }
  rewrite Hserve, error_reply_unfold. done.
Qed.

(** The three outcomes of the portal call, for a request that passes the
    limiter and the two checks of [login]. *)
Lemma login_after_checks (now : Q) (request : Request) (w : World)
    (rollno : str) (password remember_me : pyval) :
  admitted 5 300 now request w →
  login_fields request = Returns (rollno, password, remember_me) →
  rollno ≠ [] →
  truthy password = true →
  re_match rollno_pattern rollno = true →
  let response := (serve POST_login now request w).1 in
  let session' := flask_session (serve POST_login now request w).2 in
  (∀ message,
     return_attendance rollno password = Returns (RStr message) →
     response = error_reply request (PStr message) 401 ∧ status response = 401
     ∧ session' = flask_session w)
  ∧ (∀ raw portal course_plan attendance_data cgpa_data,
       return_attendance rollno password = Returns (RTuple raw portal) →
       get_course_plan portal = Returns course_plan →
       data_json raw course_plan = Returns attendance_data →
       return_cgpa portal = Returns cgpa_data →
       status response = 200
       ∧ response =
           (if is_json request
            then ok (jsonify (PDict (<["ok" := PBool true]>
                                       (<["message" := PStr (text "Login successful")]> ∅))))
            else ok (render_template "dashboard.html"
                       (<["rollno" := PStr rollno]>
                          (<["attendance" := attendance_data]>
                             (<["cgpa" := cgpa_data]> ∅)))))
       ∧ session' =
           <["_permanent" := PBool (truthy remember_me)]>
             (<["rollno" := PStr rollno]>
                (<["course_plan" := course_plan]>
                   (<["cgpa_data" := cgpa_data]>
                      (<["attendance_data" := attendance_data]> (flask_session w))))))
  ∧ ((∃ e, return_attendance rollno password = Raises e)
     ∨ return_attendance rollno password = Returns ROther
     ∨ (∃ raw portal, return_attendance rollno password = Returns (RTuple raw portal) ∧
          ((∃ e, get_course_plan portal = Raises e)
           ∨ (∃ e, return_cgpa portal = Raises e)
           ∨ (∃ course_plan e, get_course_plan portal = Returns course_plan ∧
                data_json raw course_plan = Raises e))) →
     response = error_reply request internal_error 500 ∧ status response = 500
     ∧ session' = flask_session w).
Proof.
  intros Hadm Hfields Hroll Hpass Hmatch response session'. subst response session'.
  rewrite (serve_login_admitted _ _ _ Hadm). unfold login. run. rewrite Hfields.
  rewrite (truthy_str_true _ Hroll), Hpass, Hmatch. simpl.
  split; [|split].
  - intros message ->. simpl. by rewrite status_error_reply.
  - intros raw portal course_plan attendance_data cgpa_data -> -> -> ->. simpl.
    by destruct (is_json request).
  - intros [[e ->] | [-> | (raw & portal & -> & Hfail)]]; simpl;
      try by rewrite status_error_reply.
    destruct Hfail as [[e ->] | [[e Hcg] | (course_plan & e & -> & ->)]]; simpl;
      try by rewrite status_error_reply.
    destruct (get_course_plan portal) as [course_plan|e']; simpl;
      [|by rewrite status_error_reply].
    destruct (data_json raw course_plan) as [attendance_data|e']; simpl;
      [|by rewrite status_error_reply].
    rewrite Hcg. simpl. by rewrite status_error_reply.
Qed.

(** The calls made to [bunker_mod] while one request is served. *)
Lemma login_calls_portal (now : Q) (request : Request) (w : World)
    (rollno : str) (password : pyval) :
  CallReturnAttendance rollno password ∈
    drop (length (portal_calls w)) (portal_calls (serve POST_login now request w).2) →
  admitted 5 300 now request w ∧
  ∃ remember_me,
    login_fields request = Returns (rollno, password, remember_me) ∧
    rollno ≠ [] ∧ truthy password = true ∧
    re_match rollno_pattern rollno = true.
Proof.
  unfold serve, view, admitted. rewrite rate_limit_unfold.
  destruct (Nat.leb_spec 5 (length (recent_attempts now 300
    (attempts_of (login_attempts w) (remote_addr request))))) as [Hge|Hlt].
  { simpl. rewrite drop_all. intros H. by apply not_elem_of_nil in H. }
  intros Hcall. split; [done|]. revert Hcall. unfold login. run.
  destruct (login_fields request) as [[[r p] remember_me]|e]; simpl;
    [|rewrite drop_all; intros H; by apply not_elem_of_nil in H].
  destruct (truthy (PStr r)) eqn:Hr; simpl;
    [|rewrite drop_all; intros H; by apply not_elem_of_nil in H].
  assert (Hne : r ≠ []) by (intros ->; done).
  destruct (truthy p) eqn:Hp; simpl;
    [|rewrite drop_all; intros H; by apply not_elem_of_nil in H].
  destruct (re_match rollno_pattern r) eqn:Hm; simpl;
    [|rewrite drop_all; intros H; by apply not_elem_of_nil in H].
  assert (Hfirst : ∀ rest : list extcall,
    CallReturnAttendance rollno password ∈
      CallReturnAttendance r p :: rest →
    Forall (λ c, c ≠ CallReturnAttendance rollno password) rest →
    ∃ remember_me0,
      Returns (A := str * pyval * pyval) (r, p, remember_me) =
        Returns (rollno, password, remember_me0) ∧
      rollno ≠ [] ∧ truthy password = true ∧
      re_match rollno_pattern rollno = true).
  { intros rest Hin Hrest. apply elem_of_cons in Hin as [[= -> ->] | Hin]; [eauto|].
    rewrite Forall_forall in Hrest. by destruct (Hrest _ Hin). }
  destruct (return_attendance r p) as [[message|raw portal|]|e]; simpl;
    try (change (portal_calls w ++ [CallReturnAttendance r p])
           with (portal_calls w ++ [CallReturnAttendance r p] ++ []);
         rewrite drop_app_length; intros H; apply (Hfirst [] H); by constructor).
  destruct (get_course_plan portal) as [course_plan|e]; simpl;
    [|rewrite <- !app_assoc, drop_app_length; simpl; intros H;
      apply (Hfirst _ H); by repeat constructor].
  destruct (data_json raw course_plan) as [attendance_data|e]; simpl;
    [|rewrite <- !app_assoc, drop_app_length; simpl; intros H;
      apply (Hfirst _ H); by repeat constructor].
  destruct (return_cgpa portal) as [cgpa_data|e]; simpl;
    [|rewrite <- !app_assoc, drop_app_length; simpl; intros H;
      apply (Hfirst _ H); by repeat constructor].
  destruct (is_json request); simpl;
    rewrite <- !app_assoc, drop_app_length; simpl; intros H;
    apply (Hfirst _ H); by repeat constructor.
Qed.

(** C6: when serving a POST to /login calls
    [return_attendance(rollno, password)]: a string result is answered 401
    and that string is the message of the reply (the field [message] of the
    JSON object, the [error] of the index page); a tuple result, when the
    three derived calls return, is answered 200 and the attendance, CGPA and
    course-plan views are stored in the session; an exception raised by any
    of the four calls (or a result that cannot be unpacked) is answered 500
    with the message "An internal error occurred. Please try again later.",
    the same for every exception, and the session is not touched. *)
Theorem login_scraper_outcomes (now : Q) (request : Request) (w : World)
    (rollno : str) (password : pyval) :
  CallReturnAttendance rollno password ∈
    drop (length (portal_calls w)) (portal_calls (serve POST_login now request w).2) →
  let response := (serve POST_login now request w).1 in
  let session' := flask_session (serve POST_login now request w).2 in
  (∀ message,
     return_attendance rollno password = Returns (RStr message) →
     response =
       mkResponse
         (if is_json request
          then jsonify (PDict (<["ok" := PBool false]> (<["message" := PStr message]> ∅)))
          else render_template "index.html" (<["error" := PStr message]> ∅))
         401
     ∧ status response = 401
     ∧ session' = flask_session w)
  ∧ (∀ raw portal course_plan attendance_data cgpa_data,
       return_attendance rollno password = Returns (RTuple raw portal) →
       get_course_plan portal = Returns course_plan →
       data_json raw course_plan = Returns attendance_data →
       return_cgpa portal = Returns cgpa_data →
       status response = 200
       ∧ session' !! "attendance_data" = Some attendance_data
       ∧ session' !! "cgpa_data" = Some cgpa_data
       ∧ session' !! "course_plan" = Some course_plan
       ∧ session' !! "rollno" = Some (PStr rollno))
  ∧ ((∃ e, return_attendance rollno password = Raises e)
     ∨ return_attendance rollno password = Returns ROther
     ∨ (∃ raw portal, return_attendance rollno password = Returns (RTuple raw portal) ∧
          ((∃ e, get_course_plan portal = Raises e)
           ∨ (∃ e, return_cgpa portal = Raises e)
           ∨ (∃ course_plan e, get_course_plan portal = Returns course_plan ∧
                data_json raw course_plan = Raises e))) →
     response =
       mkResponse
         (if is_json request
          then jsonify (PDict (<["ok" := PBool false]>
                 (<["message" :=
                      PStr (text "An internal error occurred. Please try again later.")]> ∅)))
          else render_template "index.html"
                 (<["error" :=
                      PStr (text "An internal error occurred. Please try again later.")]> ∅))
         500
     ∧ status response = 500
     ∧ session' = flask_session w).
Proof.
  intros Hcall response session'.
  destruct (login_calls_portal _ _ _ _ _ Hcall) as (Hadm & remember_me & Hf & Hr & Hp & Hm).
  destruct (login_after_checks now request w rollno password remember_me Hadm Hf Hr Hp Hm)
    as (Hstr & Htuple & Hexc).
  split; [|split].
  - intros message Hmsg. destruct (Hstr _ Hmsg) as (Hresp & Hstatus & Hsess).
    rewrite error_reply_unfold in Hresp. done.
  - intros raw portal course_plan attendance_data cgpa_data H1 H2 H3 H4.
    destruct (Htuple _ _ _ _ _ H1 H2 H3 H4) as (Hstatus & _ & Hsession).
    split; [exact Hstatus|]. subst session'. rewrite Hsession.
    repeat split; by simplify_map_eq.
  - intros Hfail. destruct (Hexc Hfail) as (Hresp & Hstatus & Hsess).
    rewrite error_reply_unfold in Hresp. done.
Qed.

(** *** Five attempts, then a sixth *)

Lemma recent_attempts_all (now window : Q) (attempts : list Q) :
  Forall (λ t, (now - window < t)%Q) attempts →
  recent_attempts now window attempts = attempts.
Proof.
  induction 1 as [|t attempts Ht _ IH]; [done|].
  apply Qltb_lt in Ht. by rewrite recent_attempts_cons, Ht, IH.
Qed.

(** The list of an address after a run of POSTs to /login from it, all
    inside the window that ends at [now], while fewer than five are
    recorded: every one of them is appended. *)
Lemma serve_all_logins (now : Q) (ip : string) (logins : list (Q * Request)) (w : World) :
  Forall (λ t, (now - 300 < t)%Q) (attempts_of (login_attempts w) ip) →
  Forall (λ a, remote_addr a.2 = ip ∧ (now - 300 < a.1)%Q ∧ (a.1 <= now)%Q) logins →
  (length (attempts_of (login_attempts w) ip) + length logins ≤ 5)%nat →
  attempts_of (login_attempts (serve_all ((λ a, (POST_login, a.1, a.2)) <$> logins) w)) ip =
  attempts_of (login_attempts w) ip ++ logins.*1.
Proof.
  revert w. induction logins as [|[t request] logins IH]; intros w Hold Hnew Hlen;
    simpl in *; [by rewrite app_nil_r|].
  inversion Hnew as [|? ? (Hip & Hlo & Hhi) Hrest]; subst. simpl in *.
  assert (Hkeep : recent_attempts t 300 (attempts_of (login_attempts w) (remote_addr request))
                  = attempts_of (login_attempts w) (remote_addr request)).
  { apply recent_attempts_all. eapply Forall_impl; [exact Hold|]. simpl. intros a Ha. lra. }
  assert (Hnext : attempts_of (login_attempts (serve POST_login t request w).2)
                    (remote_addr request)
                  = attempts_of (login_attempts w) (remote_addr request) ++ [t]).
  { rewrite serve_login_admitted by (unfold admitted; rewrite Hkeep; lia).
    pose proof (login_effect request (record_attempt 300 t request w)) as [Hsame _].
    destruct (login request (record_attempt 300 t request w)) as [[r|e] w']; simpl in *;
      rewrite Hsame; unfold record_attempt; simpl; by rewrite attempts_of_insert, Hkeep. }
  rewrite IH.
  - by rewrite Hnext, <- app_assoc.
  - rewrite Hnext. apply Forall_app. split; [done|]. by repeat constructor.
  - done.
  - rewrite Hnext, length_app. simpl. lia.
Qed.

(** X4: after five attempts inside 300 seconds from an address without
    earlier attempts, the sixth is answered 429 with the message "Too many
    login attempts. Please try again later.", whatever the six requests
    carry (the testable property of the specification). *)
Lemma sixth_attempt_rejected (now : Q) (request : Request) (logins : list (Q * Request))
    (w : World) :
  attempts_of (login_attempts w) (remote_addr request) = [] →
  length logins = 5%nat →
  Forall (λ a, remote_addr a.2 = remote_addr request ∧ (now - 300 < a.1)%Q ∧ (a.1 <= now)%Q)
    logins →
  (serve POST_login now request (serve_all ((λ a, (POST_login, a.1, a.2)) <$> logins) w)).1
  = mkResponse
      (if is_json request
       then jsonify (PDict (<["ok" := PBool false]>
              (<["message" :=
                   PStr (text "Too many login attempts. Please try again later.")]> ∅)))
       else render_template "index.html"
              (<["error" :=
                   PStr (text "Too many login attempts. Please try again later.")]> ∅))
      429.
Proof.
  intros Hnone Hlen Hall.
  pose proof (serve_all_logins now (remote_addr request) logins w) as Hlist.
  rewrite Hnone in Hlist. simpl in Hlist.
  specialize (Hlist ltac:(constructor) Hall ltac:(lia)).
  unfold serve, view. rewrite rate_limit_unfold, Hlist.
  rewrite recent_attempts_all.
  - rewrite length_fmap, Hlen. simpl. by rewrite error_reply_unfold.
  - apply Forall_fmap. eapply Forall_impl; [exact Hall|]. by intros a (_ & Ha & _).
Qed.

(** ** The attendance view *)

(** A sum that returns has only met dictionaries. *)
Lemma sum_from_dicts (acc : number) (key : string) (items : list pyval) (total : number) :
  sum_from acc key items = Returns total →
  Forall (λ v, ∃ d, v = PDict d) items.
Proof.
  revert acc. induction items as [|item items IH]; intros acc; simpl; [by constructor|].
  destruct item as [| | | | | |d]; simpl; try done.
  destruct (d !! key) as [v|]; simpl; [|done].
  destruct (as_number v) as [x|]; simpl; [|done].
  destruct (py_add acc x) as [acc'|]; simpl; [|done].
  intros H. constructor; eauto.
Qed.

Lemma with_titles_dicts (items : list pyval) :
  Forall (λ v, ∃ d, v = PDict d) items →
  ∃ subjects,
    with_titles items = Returns subjects ∧
    Forall2 (λ v out, ∃ d, v = PDict d ∧ out = PDict (<["display_name" := display_name d]> d))
      items subjects.
Proof.
  induction 1 as [|item items [d ->] _ (subjects & Hs & Hall)]; simpl.
  - exists []. split; [done | constructor].
  - rewrite Hs. eexists. split; [done|]. constructor; eauto.
Qed.

(** The successful path of [get_attendance]. *)
Lemma get_attendance_success (w : World) (records : list pyval)
    (total_hours total_present percentage : number) (days : Z * Z) :
  is_Some (flask_session w !! "rollno") →
  flask_session w !! "attendance_data" = Some (PList records) →
  records ≠ [] →
  py_sum "total_hours" records = Returns total_hours →
  py_sum "total_present" records = Returns total_present →
  overall_percentage total_hours total_present = Returns percentage →
  threshold_days total_hours total_present percentage = Returns days →
  ∃ subjects,
    with_titles records = Returns subjects ∧
    get_attendance w =
      (Returns (ok (jsonify (PDict (attendance_summary subjects total_hours total_present
                                      percentage days.1 days.2)))), w).
Proof.
  intros Hin Hdata Hne Hh Hp Hpct Hdays.
  destruct (with_titles_dicts records (sum_from_dicts _ _ _ _ Hh)) as (subjects & Hs & _).
  exists subjects. split; [done|].
  assert (Htruthy : truthy (PList records) = true) by by destruct records.
  unfold get_attendance, login_required.
  unfold bind, ret, lift, try_except, session_get, session_contains.
  rewrite bool_decide_eq_true_2 by done. cbn [negb]. rewrite Hdata. cbn [default from_option id].
  rewrite Htruthy. cbn [negb py_iter]. by rewrite Hh, Hp, Hpct, Hdays, Hs.
Qed.

(** Conversely, a 200 from [get_attendance] comes from that path only. *)
Lemma get_attendance_200 (w w' : World) (response : Response) :
  get_attendance w = (Returns response, w') →
  status response = 200 →
  ∃ records total_hours total_present percentage days subjects,
    is_Some (flask_session w !! "rollno") ∧
    flask_session w !! "attendance_data" = Some (PList records) ∧
    records ≠ [] ∧
    py_sum "total_hours" records = Returns total_hours ∧
    py_sum "total_present" records = Returns total_present ∧
    overall_percentage total_hours total_present = Returns percentage ∧
    threshold_days total_hours total_present percentage = Returns days ∧
    with_titles records = Returns subjects ∧
    response = ok (jsonify (PDict (attendance_summary subjects total_hours total_present
                                     percentage days.1 days.2))) ∧
    w' = w.
Proof.
  unfold get_attendance, login_required. run.
  destruct (bool_decide (is_Some (flask_session w !! "rollno"))) eqn:Hin; simpl;
    [|by intros [= <- <-]].
  apply bool_decide_eq_true in Hin.
  destruct (flask_session w !! "attendance_data") as [v|] eqn:Hdata; simpl;
    [|by intros [= <- <-]].
  destruct (truthy v) eqn:Htrue; simpl; [|by intros [= <- <-]].
  destruct (py_iter v) as [records|e] eqn:Hiter; simpl; [|by intros [= <- <-]].
  destruct (py_sum "total_hours" records) as [total_hours|e] eqn:Hh; simpl;
    [|by intros [= <- <-]].
  destruct (py_sum "total_present" records) as [total_present|e] eqn:Hp; simpl;
    [|by intros [= <- <-]].
  destruct (overall_percentage total_hours total_present) as [percentage|e] eqn:Hpct; simpl;
    [|by intros [= <- <-]].
  destruct (threshold_days total_hours total_present percentage) as [days|e] eqn:Hdays; simpl;
    [|by intros [= <- <-]].
  destruct (with_titles records) as [subjects|e] eqn:Hs; simpl; [|by intros [= <- <-]].
  intros [= <- <-] _.
  assert (Hdicts := sum_from_dicts _ _ _ _ Hh).
  destruct v as [| | | |s|l|d]; simpl in Hiter; try done.
  - (* a string: its characters are not records *)
    destruct s as [|c s]; [done|]. injection Hiter as <-. simpl in Hdicts.
    inversion Hdicts as [|? ? [d Hd] _]. done.
  - injection Hiter as ->. exists records, total_hours, total_present, percentage, days, subjects.
    repeat split; try done. by destruct records.
  - (* a dictionary: its keys are not records *)
    injection Hiter as <-. destruct (map_to_list d) as [|[k x] rest] eqn:Hd.
    + apply map_to_list_empty_iff in Hd. subst d. done.
    + simpl in Hdicts. inversion Hdicts as [|? ? [d' Hd'] _]. done.
Qed.

Lemma serve_get_attendance (now : Q) (request : Request) (w : World) :
  ∃ response, get_attendance w = (Returns response, w) ∧
              serve GET_attendance now request w = (response, w).
Proof.
  unfold serve, view, get_attendance, login_required. run.
  destruct (bool_decide (is_Some (flask_session w !! "rollno"))); simpl; [|eauto].
  destruct (negb (truthy (default (PList []) (flask_session w !! "attendance_data"))));
    simpl; [eauto|].
  destruct (py_iter _); simpl; [|eauto].
  destruct (py_sum "total_hours" _) as [total_hours|]; simpl; [|eauto].
  destruct (py_sum "total_present" _) as [total_present|]; simpl; [|eauto].
  destruct (overall_percentage total_hours total_present) as [percentage|]; simpl; [|eauto].
  destruct (threshold_days total_hours total_present percentage); simpl; [|eauto].
  destruct (with_titles _); simpl; eauto.
Qed.

(** With stored records whose sums are known, /attendance answers 200
    exactly when lines 144-152 raise nothing, and then with their results;
    it answers 500 otherwise. *)
Lemma serve_attendance_totals (now : Q) (request : Request) (w : World)
    (records : list pyval) (total_hours total_present : number) :
  is_Some (flask_session w !! "rollno") →
  flask_session w !! "attendance_data" = Some (PList records) →
  records ≠ [] →
  py_sum "total_hours" records = Returns total_hours →
  py_sum "total_present" records = Returns total_present →
  ∃ subjects,
    with_titles records = Returns subjects ∧
    (serve GET_attendance now request w).1 =
      match statistics total_hours total_present with
      | Returns (percentage, need, bunkable) =>
          ok (jsonify (PDict (attendance_summary subjects total_hours total_present
                                percentage need bunkable)))
      | Raises _ =>
          mkResponse (jsonify (PDict
            (<["error" := PStr (text "Failed to fetch attendance data")]> ∅))) 500
      end.
Proof.
  intros Hin Hdata Hne Hh Hp.
  destruct (with_titles_dicts records (sum_from_dicts _ _ _ _ Hh)) as (subjects & Hs & _).
  exists subjects. split; [done|].
  assert (Htruthy : truthy (PList records) = true) by by destruct records.
  unfold serve, view, get_attendance, login_required, statistics.
  unfold bind, ret, lift, try_except, session_get, session_contains.
  rewrite bool_decide_eq_true_2 by done. cbn [negb]. rewrite Hdata. cbn [default from_option id].
  rewrite Htruthy. cbn [negb py_iter]. rewrite Hh, Hp.
  destruct (overall_percentage total_hours total_present) as [percentage|]; simpl; [|done].
  destruct (threshold_days total_hours total_present percentage) as [[need bunkable]|];
    simpl; [|done].
  by rewrite Hs.
Qed.

(** *** Lines 144-152, step by step *)

Lemma overall_percentage_inv (total_hours total_present percentage : number) :
  overall_percentage total_hours total_present = Returns percentage →
  (py_lt (Int 0) total_hours = true →
     ∃ quotient, py_truediv total_present total_hours = Returns quotient ∧
                 py_mul quotient (Int 100) = Returns percentage)
  ∧ (py_lt (Int 0) total_hours = false → percentage = Int 0).
Proof.
  unfold overall_percentage. destruct (py_lt (Int 0) total_hours).
  - destruct (py_truediv total_present total_hours) as [quotient|]; simpl; [|done].
    intros H. split; [eauto | done].
  - intros [= <-]. by split.
Qed.

(** [int] truncates toward zero. *)
Lemma py_int_quot (x : Q) : py_int x = Z.quot (Qnum x) (Z.pos (Qden x)).
Proof.
  unfold py_int. destruct x as [n d]. simpl.
  destruct (Qle_bool 0 (n # d)) eqn:Hsign.
  - apply Qle_bool_iff in Hsign. unfold Qle in Hsign. simpl in Hsign.
    unfold Qfloor. rewrite Z.quot_div_nonneg; [done | lia | lia].
  - assert (Hneg : n < 0).
    { destruct (Z.ltb_spec n 0) as [|Hge]; [done|].
      assert (Qle_bool 0 (n # d) = true); [|congruence].
      apply Qle_bool_iff. unfold Qle. simpl. lia. }
    unfold Qceiling, Qfloor. simpl.
    rewrite <- (Z.opp_involutive n) at 2. rewrite Z.quot_opp_l by lia.
    rewrite Z.quot_div_nonneg; [done | lia | lia].
Qed.

Lemma py_int_floor (x : Q) : (0 <= x)%Q → py_int x = Qfloor x.
Proof. intros H. unfold py_int. apply Qle_bool_iff in H. by rewrite H. Qed.

Lemma threshold_days_inv (total_hours total_present percentage : number) (need bunkable : Z) :
  threshold_days total_hours total_present percentage = Returns (need, bunkable) →
  (py_lt percentage (Int 75) = true →
     bunkable = 0 ∧
     ∃ required missing sessions value,
       py_mul (Float 0.75) total_hours = Returns required ∧
       py_sub required total_present = Returns missing ∧
       py_truediv missing (Float 0.25) = Returns sessions ∧
       finite_value sessions = Returns value ∧
       need = Qceiling value)
  ∧ (py_lt percentage (Int 75) = false →
     need = 0 ∧
     ∃ required spare sessions value,
       py_mul (Float 0.75) total_hours = Returns required ∧
       py_sub total_present required = Returns spare ∧
       py_truediv spare (Float 0.75) = Returns sessions ∧
       finite_value sessions = Returns value ∧
       bunkable = Z.quot (Qnum value) (Z.pos (Qden value)) ∧
       ((0 <= value)%Q → bunkable = Qfloor value)).
Proof.
  unfold threshold_days, math_ceil_of, py_int_of. intros H.
  destruct (py_lt percentage (Int 75));
    (destruct (py_mul (Float 0.75) total_hours) as [required|] eqn:H1; simpl in H; [|done]).
  - destruct (py_sub required total_present) as [missing|] eqn:H2; simpl in H; [|done].
    destruct (py_truediv missing (Float 0.25)) as [sessions|] eqn:H3; simpl in H; [|done].
    destruct (finite_value sessions) as [value|] eqn:H4; simpl in H; [|done].
    injection H as <- <-. split; [|done]. intros _. split; [done|].
    by exists required, missing, sessions, value.
  - destruct (py_sub total_present required) as [spare|] eqn:H2; simpl in H; [|done].
    destruct (py_truediv spare (Float 0.75)) as [sessions|] eqn:H3; simpl in H; [|done].
    destruct (finite_value sessions) as [value|] eqn:H4; simpl in H; [|done].
    injection H as <- <-. split; [done|]. intros _. split; [done|].
    exists required, spare, sessions, value. repeat split; try done.
    + apply py_int_quot.
    + apply py_int_floor.
Qed.



Lemma json_field_summary (subjects : list pyval) (h p percentage : number) (need bunkable : Z) :
  let response := ok (jsonify (PDict (attendance_summary subjects h p percentage
                                        need bunkable))) in
  json_field response "subjects" = Some (PList subjects) ∧
  json_field response "total_days" = Some (of_number h) ∧
  json_field response "attended_days" = Some (of_number p) ∧
  json_field response "percentage" = Some (of_number percentage) ∧
  json_field response "need_days" = Some (PInt need) ∧
  json_field response "bunkable_days" = Some (PInt bunkable).
Proof. unfold json_field, attendance_summary. simpl. repeat split; by simplify_map_eq. Qed.

Lemma display_name_chain (d : gmap string pyval) :
  display_name d =
  first_present ["course_title"; "name"; "original_name"] d (PStr (text "Unknown Course")).
Proof.
  unfold display_name. simpl.
  by destruct (d !! "course_title"), (d !! "name"), (d !! "original_name").
Qed.

(** The sum of no record is the integer 0. *)
Lemma py_sum_nonempty (key : string) (records : list pyval) (n : Z) :
  py_sum key records = Returns (Int n) → n ≠ 0 → records ≠ [].
Proof. intros H Hn ->. injection H as <-. done. Qed.

(** *** The formulas in exact arithmetic *)


Lemma percentage_above (h p : Q) :
  Qltb (exact_percentage h p) 75 = false →
  (0 <= (p - 0.75 * h) / 0.75)%Q.
Proof.
  unfold exact_percentage. intros Hge.
  assert (Hnum : (0 <= p - 0.75 * h)%Q).
  { destruct (Qltb 0 h) eqn:Hh.
    - apply Qltb_lt in Hh. apply Qltb_ge in Hge.
      assert (Hp : (p == h * (p / h))%Q).
      { rewrite Qmult_div_r; [reflexivity|]. intros H0. rewrite H0 in Hh.
        by apply Qlt_irrefl in Hh. }
      set (q := (p / h)%Q) in *. rewrite Hp.
      assert (Hq : (0 <= q - 0.75)%Q) by lra.
      assert (Hprod : (0 <= h * (q - 0.75))%Q).
      { apply Qmult_le_0_compat; [by apply Qlt_le_weak | done]. }
      lra.
    - done. }
  apply Qle_shift_div_l; [reflexivity | lra].
Qed.

(** At or above 75%, truncation by [int] is the floor. *)
Lemma exact_bunkable_days_floor (h p : Q) :
  Qltb (exact_percentage h p) 75 = false →
  exact_bunkable_days h p = Qfloor ((p - 0.75 * h) / 0.75).
Proof.
  intros Hge. unfold exact_bunkable_days. rewrite Hge.
  apply py_int_floor. by apply percentage_above.
Qed.




(** At or above 75%, [exact_bunkable_days] is the greatest number of
    further hours, all missed, that keeps 75%. *)
Lemma exact_bunkable_days_greatest (h p : Q) :
  Qltb (exact_percentage h p) 75 = false →
  (0.75 * (h + inject_Z (exact_bunkable_days h p)) <= p)%Q
  ∧ ∀ m : Z, (0.75 * (h + inject_Z m) <= p)%Q → m ≤ exact_bunkable_days h p.
Proof.
  intros Hge. rewrite (exact_bunkable_days_floor _ _ Hge).
  set (x := ((p - 0.75 * h) / 0.75)%Q).
  assert (Hx : (0.75 * x == p - 0.75 * h)%Q) by (unfold x; field).
  split.
  - pose proof (Qfloor_le x) as Hf. lra.
  - intros m Hm. assert (Hmx : (inject_Z m <= x)%Q) by lra.
    apply Qfloor_resp_le in Hmx. by rewrite Qfloor_Z in Hmx.
Qed.

(** *** Binary64 against exact arithmetic, on small integer totals *)

(** The worked examples of the specification on machine integers: the
    percentage is the float 70 (resp. 90) and the counters are 20. *)
Lemma binary64_examples :
  binary64_statistics 100 70 = Some (70%float, 20, 0) ∧
  binary64_statistics 100 90 = Some (90%float, 0, 20).
Proof. split; vm_compute; reflexivity. Qed.

(** X20: on all totals up to 100 hours the binary64 computation and the
    exact one report the same [need_days] and [bunkable_days]. *)
Lemma binary64_same_days :
  forallb (λ h, forallb (same_days h) (count_to 100)) (count_to 100) = true.
Proof. vm_compute. reflexivity. Qed.

(** The same for [statistics], the lines as [get_attendance] runs them, on
    the integer totals with [0 <= total_present <= total_hours <= 200]. *)
Lemma statistics_exact_on_totals :
  forallb (λ totals, exact_on totals.1 totals.2) (totals_up_to 200) = true.
Proof. vm_compute. reflexivity. Qed.

Lemma elem_of_count_to (n : nat) (z : Z) : z ∈ count_to n ↔ 0 ≤ z ≤ Z.of_nat n.
Proof.
  unfold count_to. rewrite list_elem_of_fmap. split.
  - intros (k & -> & Hk). apply elem_of_seq in Hk. lia.
  - intros Hz. exists (Z.to_nat z). split; [lia|]. apply elem_of_seq. lia.
Qed.

Lemma elem_of_totals_up_to (n : nat) (h p : Z) :
  0 ≤ p ≤ h → h ≤ Z.of_nat n → (h, p) ∈ totals_up_to n.
Proof.
  intros Hp Hh. unfold totals_up_to. apply list_elem_of_bind. exists h. split.
  - apply list_elem_of_bind. exists p. split; [apply list_elem_of_singleton; done|].
    apply elem_of_count_to. lia.
  - apply elem_of_count_to. lia.
Qed.

(** On these totals [statistics] raises nothing, reports a finite
    percentage between 0 and 100, takes the branch exact arithmetic takes
    and reports its counters. *)
Lemma statistics_small (h p : Z) :
  0 ≤ p ≤ h → h ≤ 200 →
  ∃ percentage need bunkable value,
    statistics (Int h) (Int p) = Returns (percentage, need, bunkable) ∧
    finite_value percentage = Returns value ∧
    (0 <= value <= 100)%Q ∧
    py_lt percentage (Int 75) = Qltb (exact_percentage (inject_Z h) (inject_Z p)) 75 ∧
    need = exact_need_days (inject_Z h) (inject_Z p) ∧
    bunkable = exact_bunkable_days (inject_Z h) (inject_Z p).
Proof.
  intros Hp Hh.
  pose proof statistics_exact_on_totals as Hall.
  rewrite forallb_forall in Hall.
  specialize (Hall (h, p)). cbn [fst snd] in Hall.
  assert (Hin : In (h, p) (totals_up_to 200)).
  { apply list_elem_of_In. by apply (elem_of_totals_up_to 200). }
  specialize (Hall Hin). unfold exact_on in Hall.
  destruct (statistics (Int h) (Int p)) as [[[percentage need] bunkable]|]; [|done].
  destruct (finite_value percentage) as [value|] eqn:Hvalue; [|done].
  exists percentage, need, bunkable, value.
  apply andb_true_iff in Hall as [Hall Hbunk].
  apply andb_true_iff in Hall as [Hall Hneed].
  apply andb_true_iff in Hall as [Hrange Hbranch].
  apply andb_true_iff in Hrange as [Hlow Hhigh].
  apply Qle_bool_iff in Hlow. apply Qle_bool_iff in Hhigh.
  apply Bool.eqb_prop in Hbranch. apply Z.eqb_eq in Hneed. apply Z.eqb_eq in Hbunk.
  done.
Qed.

(** C2, as the code has it: for stored records with totals [total_hours]
    and [total_present], a 200 answer of /attendance reports the totals and
    the results of lines 144-152 in Python's arithmetic: for
    [total_hours > 0] the percentage is [total_present / total_hours * 100];
    when the percentage is below 75, need_days is the ceiling of
    [(0.75 * total_hours - total_present) / 0.25] and bunkable_days is 0;
    otherwise need_days is 0 and bunkable_days is
    [(total_present - 0.75 * total_hours) / 0.75] truncated toward zero,
    which is its floor when that quotient is not negative. Totals 100 and
    70 give 70 and 20 needed, totals 100 and 90 give 90 and 20 bunkable. *)
Theorem attendance_statistics (now : Q) (request : Request) (w : World)
    (records : list pyval) (total_hours total_present : number) :
  session_consistent w →
  flask_session w !! "attendance_data" = Some (PList records) →
  py_sum "total_hours" records = Returns total_hours →
  py_sum "total_present" records = Returns total_present →
  let response := (serve GET_attendance now request w).1 in
  (status response = 200 →
   ∃ (percentage : number) (need bunkable : Z),
     json_field response "total_days" = Some (of_number total_hours) ∧
     json_field response "attended_days" = Some (of_number total_present) ∧
     json_field response "percentage" = Some (of_number percentage) ∧
     json_field response "need_days" = Some (PInt need) ∧
     json_field response "bunkable_days" = Some (PInt bunkable) ∧
     (py_lt (Int 0) total_hours = true →
        ∃ quotient, py_truediv total_present total_hours = Returns quotient ∧
                    py_mul quotient (Int 100) = Returns percentage) ∧
     (py_lt percentage (Int 75) = true →
        bunkable = 0 ∧
        ∃ required missing sessions value,
          py_mul (Float 0.75) total_hours = Returns required ∧
          py_sub required total_present = Returns missing ∧
          py_truediv missing (Float 0.25) = Returns sessions ∧
          finite_value sessions = Returns value ∧
          need = Qceiling value) ∧
     (py_lt percentage (Int 75) = false →
        need = 0 ∧
        ∃ required spare sessions value,
          py_mul (Float 0.75) total_hours = Returns required ∧
          py_sub total_present required = Returns spare ∧
          py_truediv spare (Float 0.75) = Returns sessions ∧
          finite_value sessions = Returns value ∧
          bunkable = Z.quot (Qnum value) (Z.pos (Qden value)) ∧
          ((0 <= value)%Q → bunkable = Qfloor value)))
  ∧ (total_hours = Int 100 → total_present = Int 70 →
     status response = 200 ∧
     json_field response "percentage" = Some (PFloat 70) ∧
     json_field response "need_days" = Some (PInt 20) ∧
     json_field response "bunkable_days" = Some (PInt 0))
  ∧ (total_hours = Int 100 → total_present = Int 90 →
     status response = 200 ∧
     json_field response "percentage" = Some (PFloat 90) ∧
     json_field response "need_days" = Some (PInt 0) ∧
     json_field response "bunkable_days" = Some (PInt 20)).
Proof.
  intros Hcons Hdata Hh Hp response.
  assert (Hin : is_Some (flask_session w !! "rollno")) by (apply Hcons; by rewrite Hdata).
  assert (Hexample : ∀ h p percentage need bunkable,
    total_hours = Int h → total_present = Int p → h ≠ 0 →
    statistics (Int h) (Int p) = Returns (percentage, need, bunkable) →
    status response = 200 ∧
    json_field response "percentage" = Some (of_number percentage) ∧
    json_field response "need_days" = Some (PInt need) ∧
    json_field response "bunkable_days" = Some (PInt bunkable)).
  { intros h p percentage need bunkable -> -> Hne Hstat.
    pose proof (py_sum_nonempty _ _ _ Hh Hne) as Hrec.
    destruct (serve_attendance_totals now request w records _ _ Hin Hdata Hrec Hh Hp)
      as (subjects & _ & Hresp).
    subst response. rewrite Hresp, Hstat.
    split; [done|]. apply json_field_summary. }
  split; [|split].
  - subst response.
    destruct (serve_get_attendance now request w) as (response & Hrun & ->). cbn [fst].
    intros Hstatus.
    destruct (get_attendance_200 _ _ _ Hrun Hstatus)
      as (records' & h & p & percentage & [need bunkable] & subjects & _ & Hdata' & _
          & Hh' & Hp' & Hpct & Hdays & _ & -> & _).
    rewrite Hdata in Hdata'. injection Hdata' as <-.
    rewrite Hh in Hh'. injection Hh' as <-. rewrite Hp in Hp'. injection Hp' as <-.
    destruct (json_field_summary subjects total_hours total_present percentage need bunkable)
      as (_ & Hdays' & Hattended & Hpct' & Hneed & Hbunk).
    exists percentage, need, bunkable.
    repeat (split; [done|]).
    destruct (overall_percentage_inv _ _ _ Hpct) as [Hquot _].
    destruct (threshold_days_inv _ _ _ _ _ Hdays) as [Hbelow Habove].
    done.
  - intros Hth Htp. apply (Hexample 100 70 (Float 70) 20 0 Hth Htp); [done|].
    vm_compute. reflexivity.
  - intros Hth Htp. apply (Hexample 100 90 (Float 90) 0 20 Hth Htp); [done|].
    vm_compute. reflexivity.
Qed.


(** C8, as the code has it: every subject of a 200 answer of /attendance is
    the stored record with a display name added, taken from the first
    present of course_title, then name, then original_name, and "Unknown
    Course" when none is present. *)
Theorem attendance_display_names (now : Q) (request : Request) (w : World) :
  let response := (serve GET_attendance now request w).1 in
  status response = 200 →
  ∃ records subjects,
    flask_session w !! "attendance_data" = Some (PList records) ∧
    json_field response "subjects" = Some (PList subjects) ∧
    Forall2
      (λ record subject,
         ∃ d, record = PDict d ∧
              subject = PDict (<["display_name" :=
                  first_present ["course_title"; "name"; "original_name"] d
                    (PStr (text "Unknown Course"))]> d))
      records subjects.
Proof.
  intros response. subst response.
  destruct (serve_get_attendance now request w) as (response & Hrun & ->). cbn [fst].
  intros Hstatus.
  destruct (get_attendance_200 _ _ _ Hrun Hstatus)
    as (records & h & p & percentage & days & subjects & _ & Hdata & _ & Hh & _ & _ & _
        & Hs & -> & _).
  destruct (with_titles_dicts records (sum_from_dicts _ _ _ _ Hh)) as (subjects' & Hs' & Hall).
  rewrite Hs in Hs'. injection Hs' as <-.
  exists records, subjects. split; [done|].
  split; [apply json_field_summary|].
  eapply Forall2_impl; [exact Hall|]. intros record subject (d & -> & ->).
  exists d. by rewrite display_name_chain.
Qed.

(** ** Session-gated endpoints *)

(** C4, as the code has it: for a logged-in session, /attendance answers 404
    when the attendance data is missing or empty (falsy); /cgpa and /courses
    answer 200 with an empty JSON object when their data is missing. *)
Theorem missing_session_data (now : Q) (request : Request) (w : World) :
  is_Some (flask_session w !! "rollno") →
  (truthy (default (PList []) (flask_session w !! "attendance_data")) = false →
   serve GET_attendance now request w =
     (mkResponse (jsonify (PDict (<["error" := PStr (text "No attendance data available")]> ∅)))
        404, w))
  ∧ (flask_session w !! "cgpa_data" = None →
     serve GET_cgpa now request w = (mkResponse (jsonify (PDict ∅)) 200, w))
  ∧ (flask_session w !! "course_plan" = None →
     serve GET_courses now request w = (mkResponse (jsonify (PDict ∅)) 200, w)).
Proof.
  intros Hin. unfold serve, view, get_attendance, get_cgpa, get_courses, login_required. run.
  rewrite !bool_decide_eq_true_2 by done. simpl.
  split; [|split].
  - by intros ->.
  - by intros ->.
  - by intros ->.
Qed.

(** The view [login] writes to the session only when it answers 200, and
    then it stores the roll number. *)
Lemma login_session_effect (request : Request) (w : World) :
  flask_session (login request w).2 = flask_session w ∨
  ∃ response, (login request w).1 = Returns response ∧ status response = 200 ∧
              is_Some (flask_session (login request w).2 !! "rollno").
Proof.
  unfold login. run.
  destruct (login_fields request) as [[[rollno password] remember_me]|e]; [|by left].
  destruct (negb (truthy (PStr rollno)) || negb (truthy password)); [by left|].
  destruct (negb (re_match rollno_pattern rollno)); [by left|]. simpl.
  destruct (return_attendance rollno password) as [[message|raw portal|]|e]; simpl;
    try by left.
  destruct (get_course_plan portal) as [course_plan|e]; simpl; [|by left].
  destruct (data_json raw course_plan) as [attendance_data|e]; simpl; [|by left].
  destruct (return_cgpa portal) as [cgpa_data|e]; simpl; [|by left].
  right. destruct (is_json request); eexists; (split; [done|]); (split; [done|]);
    simpl; by simplify_map_eq.
Qed.

Lemma status_handle_exception (exc : exception) : status (handle_exception exc) ≠ 200.
Proof. by destruct exc. Qed.

(** A logged-out session stays so, unless a login succeeds. *)
Lemma serve_stays_logged_out (route : Route) (now : Q) (request : Request) (w : World) :
  (route = POST_login → status (serve route now request w).1 ≠ 200) →
  flask_session w = ∅ →
  flask_session (serve route now request w).2 = ∅.
Proof.
  intros Hroute Hout.
  destruct route;
    try (unfold serve, view, home, get_attendance, get_cgpa, get_courses,
           dashboard, logout, favicon, health_check, login_required; run; rewrite ?Hout; done).
  specialize (Hroute eq_refl). unfold serve, view in *. rewrite rate_limit_unfold in *.
  destruct (5 <=? _)%nat; [done|].
  match goal with |- context [login request ?w1] =>
    destruct (login_session_effect request w1) as [Hkeep | (response & Hrun & Hstatus & _)];
    destruct (login request w1) as [[r|e] w'] end; simpl in *; congruence.
Qed.

Lemma serve_all_stays_logged_out (requests : list (Route * Q * Request)) (w : World) :
  no_login_succeeds requests w →
  flask_session w = ∅ →
  flask_session (serve_all requests w) = ∅.
Proof.
  revert w. induction requests as [|[[route now] request] requests IH];
    intros w Hno Hout; simpl; [done|].
  destruct Hno as [Hroute Hno]. apply IH; [done|]. by apply serve_stays_logged_out.
Qed.

(** Apart from /login and /logout, no route changes the state. *)
Lemma serve_read_only (route : Route) (now : Q) (request : Request) (w : World) :
  route ≠ POST_login → route ≠ GET_logout →
  (serve route now request w).2 = w.
Proof.
  intros Hlogin Hlogout. destruct route; try done.
  - destruct (serve_get_attendance now request w) as (response & _ & ->). done.
  - unfold serve, view, get_cgpa, login_required. run.
    by destruct (bool_decide (is_Some (flask_session w !! "rollno"))).
  - unfold serve, view, get_courses, login_required. run.
    by destruct (bool_decide (is_Some (flask_session w !! "rollno"))).
  - unfold serve, view, dashboard, login_required. run.
    destruct (bool_decide (is_Some (flask_session w !! "rollno"))); [|done]. simpl.
    by destruct (flask_session w !! "rollno").
Qed.

(** In every state the views produce from a consistent one, stored
    attendance data comes with a roll number: the gate [login_required]
    never hides stored data. *)
Lemma serve_session_consistent (route : Route) (now : Q) (request : Request) (w : World) :
  session_consistent w → session_consistent (serve route now request w).2.
Proof.
  unfold session_consistent. intros Hw.
  destruct (decide (route = POST_login)) as [->|Hlogin];
    [|destruct (decide (route = GET_logout)) as [->|Hlogout]].
  - unfold serve, view. rewrite rate_limit_unfold. destruct (5 <=? _)%nat; [done|].
    match goal with |- context [login request ?w1] =>
      destruct (login_session_effect request w1) as [Hkeep | (response & Hrun & _ & Hroll)];
      destruct (login request w1) as [[r|e] w'] end; simpl in *;
      rewrite ?Hkeep; done.
  - unfold serve, view, logout. run. intros [? H]. by rewrite lookup_empty in H.
  - by rewrite serve_read_only.
Qed.

(** C5: /logout answers with a redirect to the home page and empties the
    session (rollno, attendance_data, cgpa_data and course_plan are gone);
    from then on, as long as no login succeeds, every request to /dashboard
    is answered with a redirect to the home page. *)
Theorem logout_clears_session (now : Q) (request : Request) (w : World)
    (requests : list (Route * Q * Request)) (now' : Q) (request' : Request) :
  let after := (serve GET_logout now request w).2 in
  no_login_succeeds requests after →
  (serve GET_logout now request w).1 = redirect_to "/"
  ∧ flask_session after = ∅
  ∧ Forall (λ key, flask_session after !! key = None)
      ["rollno"; "attendance_data"; "cgpa_data"; "course_plan"]
  ∧ (serve GET_dashboard now' request' (serve_all requests after)).1 = redirect_to "/".
Proof.
  intros after Hno.
  assert (Hout : flask_session after = ∅) by done.
  split; [done|]. split; [done|]. split.
  - rewrite Hout. by repeat constructor.
  - pose proof (serve_all_stays_logged_out requests after Hno Hout) as Hlater.
    unfold serve, view, dashboard, login_required. run. by rewrite Hlater.
Qed.

(** *** Requests whose fields cannot be read *)

(** A JSON request whose body cannot be parsed: [request.json] raises
    [BadRequest] outside the [try] of [login], and Flask answers with its
    own 400 page. *)
Lemma login_unparseable_body (now : Q) (request : Request) (w : World) :
  admitted 5 300 now request w →
  is_json request = true →
  json request = None →
  serve POST_login now request w = (bad_request, record_attempt 300 now request w).
Proof.
  intros Hadm Hjson Hbody. rewrite (serve_login_admitted _ _ _ Hadm).
  unfold login, login_fields, request_json. run. by rewrite Hjson, Hbody.
Qed.

(** A JSON body that is not an object has no [get]: the 500 page. *)
Lemma login_body_not_object (now : Q) (request : Request) (w : World) (v : pyval) :
  admitted 5 300 now request w →
  is_json request = true →
  json request = Some v →
  (∀ d, v ≠ PDict d) →
  serve POST_login now request w = (internal_server_error, record_attempt 300 now request w).
Proof.
  intros Hadm Hjson Hbody Hdict. rewrite (serve_login_admitted _ _ _ Hadm).
  unfold login, login_fields, request_json. run. rewrite Hjson, Hbody. simpl.
  destruct v; try done. by destruct (Hdict d).
Qed.

(** A JSON body whose roll number is not a string: [.strip()] raises
    outside the [try] of [login], and Flask answers with the 500 page. *)
Lemma login_rollno_not_string (now : Q) (request : Request) (w : World)
    (d : gmap string pyval) (v : pyval) :
  admitted 5 300 now request w →
  is_json request = true →
  json request = Some (PDict d) →
  d !! "rollno" = Some v →
  (∀ s, v ≠ PStr s) →
  serve POST_login now request w = (internal_server_error, record_attempt 300 now request w).
Proof.
  intros Hadm Hjson Hbody Hroll Hstr. rewrite (serve_login_admitted _ _ _ Hadm).
  unfold login. run. rewrite (login_fields_json _ d Hjson Hbody), Hroll. simpl.
  destruct v; try done. by destruct (Hstr s).
Qed.

(** * Further properties of the code *)

(** ** The rate limiter, continued *)

Lemma recent_attempts_length (now window : Q) (attempts : list Q) :
  (length (recent_attempts now window attempts) ≤ length attempts)%nat.
Proof.
  induction attempts as [|t attempts IH]; [done|].
  rewrite recent_attempts_cons. destruct (Qltb (now - window) t); simpl; lia.
Qed.

Lemma recent_attempts_in_window (now window : Q) (attempts : list Q) :
  Forall (λ t, (now - window < t)%Q) (recent_attempts now window attempts).
Proof.
  induction attempts as [|t attempts IH]; [constructor|].
  rewrite recent_attempts_cons. destruct (Qltb (now - window) t) eqn:Ht; [|done].
  constructor; [by apply Qltb_lt | done].
Qed.

Lemma recent_attempts_none (now window : Q) (attempts : list Q) :
  Forall (λ t, (t <= now - window)%Q) attempts →
  recent_attempts now window attempts = [].
Proof.
  induction 1 as [|t attempts Ht _ IH]; [done|].
  apply Qltb_ge in Ht. by rewrite recent_attempts_cons, Ht.
Qed.

(** The table after a POST to /login: only the caller's entry is written,
    with the pruned list, and with [now] appended when the limiter lets the
    request through. *)
Lemma serve_login_table (now : Q) (request : Request) (w : World) :
  login_attempts (serve POST_login now request w).2 =
  <[remote_addr request :=
      let recent := recent_attempts now 300
                      (attempts_of (login_attempts w) (remote_addr request)) in
      if (5 <=? length recent)%nat then recent else recent ++ [now]]>
    (login_attempts w).
Proof.
  unfold serve, view. rewrite rate_limit_unfold. cbv zeta.
  destruct (5 <=? _)%nat; [done|].
  match goal with |- context [login request ?w1] =>
    pose proof (login_effect request w1) as [Hkeep _];
    destruct (login request w1) as [[r|e] w'] end; simpl in *; by rewrite Hkeep.
Qed.

(** X1: a POST to /login changes the attempt list of the caller's address
    only; the list of every other address is left as it was. *)
Theorem login_other_addresses_untouched (now : Q) (request : Request) (w : World)
    (ip : string) :
  ip ≠ remote_addr request →
  attempts_of (login_attempts (serve POST_login now request w).2) ip =
  attempts_of (login_attempts w) ip.
Proof.
  intros Hip. rewrite serve_login_table. unfold attempts_of.
  by rewrite lookup_insert_ne.
Qed.

Lemma serve_login_bounded (now : Q) (request : Request) (w : World) :
  attempts_bounded 5 w → attempts_bounded 5 (serve POST_login now request w).2.
Proof.
  intros Hw ip. rewrite serve_login_table. cbv zeta.
  destruct (decide (ip = remote_addr request)) as [->|Hip].
  - rewrite attempts_of_insert.
    pose proof (recent_attempts_length now 300
                  (attempts_of (login_attempts w) (remote_addr request))) as Hlen.
    specialize (Hw (remote_addr request)).
    destruct (Nat.leb_spec 5 (length (recent_attempts now 300
      (attempts_of (login_attempts w) (remote_addr request))))) as [Hge|Hlt].
    + lia.
    + rewrite length_app. simpl. lia.
  - unfold attempts_of. rewrite lookup_insert_ne by done. apply Hw.
Qed.

(** Routes other than /login leave the rate-limit table and the trace of
    portal calls alone. *)
Lemma serve_other_routes (route : Route) (now : Q) (request : Request) (w : World) :
  route ≠ POST_login →
  login_attempts (serve route now request w).2 = login_attempts w ∧
  portal_calls (serve route now request w).2 = portal_calls w.
Proof.
  intros Hlogin. destruct (decide (route = GET_logout)) as [->|Hlogout].
  - done.
  - by rewrite serve_read_only.
Qed.

(** X2: no sequence of requests makes the list of an address longer than
    five timestamps: the bound is an invariant of the server. *)
Theorem serve_all_attempts_bounded (requests : list (Route * Q * Request)) (w : World) :
  attempts_bounded 5 w → attempts_bounded 5 (serve_all requests w).
Proof.
  revert w. induction requests as [|[[route now] request] requests IH]; intros w Hw;
    simpl; [done|].
  apply IH. destruct (decide (route = POST_login)) as [->|Hroute].
  - by apply serve_login_bounded.
  - intros ip. destruct (serve_other_routes route now request w Hroute) as [-> _]. apply Hw.
Qed.

(** X3: the limit expires: when every attempt recorded for the address is
    at least 300 seconds old, the next POST to /login is let through, and
    the list of the address restarts from that request alone. *)
Theorem rate_limit_expires (now : Q) (request : Request) (w : World) :
  Forall (λ t, (t <= now - 300)%Q) (attempts_of (login_attempts w) (remote_addr request)) →
  admitted 5 300 now request w
  ∧ status (serve POST_login now request w).1 ≠ 429
  ∧ attempts_of (login_attempts (serve POST_login now request w).2) (remote_addr request)
    = [now].
Proof.
  intros Hold. apply recent_attempts_none in Hold.
  assert (Hadm : admitted 5 300 now request w).
  { unfold admitted. rewrite Hold. simpl. lia. }
  split; [done|]. split.
  - rewrite (serve_login_admitted _ _ _ Hadm).
    pose proof (login_effect request (record_attempt 300 now request w)) as [_ Hstatus].
    destruct (login request (record_attempt 300 now request w)) as [[r|e] w']; simpl in *.
    + by apply Hstatus.
    + by destruct e.
  - rewrite serve_login_table, attempts_of_insert, Hold. done.
Qed.

(** X5: after any POST to /login, answered 429 or not, the list of the
    caller's address holds only timestamps of the last 300 seconds. *)
Theorem login_attempts_in_window (now : Q) (request : Request) (w : World) :
  Forall (λ t, (now - 300 < t)%Q)
    (attempts_of (login_attempts (serve POST_login now request w).2) (remote_addr request)).
Proof.
  rewrite serve_login_table, attempts_of_insert. cbv zeta.
  pose proof (recent_attempts_in_window now 300
                (attempts_of (login_attempts w) (remote_addr request))) as Hrecent.
  destruct (5 <=? _)%nat; [done|].
  apply Forall_app. split; [done|]. constructor; [lra | constructor].
Qed.

(** X8: apart from /login and /logout no route changes anything, and
    /logout changes the session only: the rate-limit table and the trace
    of portal calls are written by /login alone. *)
Theorem only_login_writes_table (route : Route) (now : Q) (request : Request) (w : World) :
  route ≠ POST_login →
  login_attempts (serve route now request w).2 = login_attempts w
  ∧ portal_calls (serve route now request w).2 = portal_calls w
  ∧ (route ≠ GET_logout → (serve route now request w).2 = w).
Proof.
  intros Hlogin. destruct (serve_other_routes route now request w Hlogin) as [Ht Hc].
  split; [done|]. split; [done|]. intros Hlogout. by apply serve_read_only.
Qed.

(** ** The gate [login_required] *)

(** X6: without a roll number in the session, each of /attendance, /cgpa,
    /courses and /dashboard answers with a redirect to the home page,
    whatever else the session holds, and changes nothing. *)
Theorem login_required_redirects (route : Route) (now : Q) (request : Request) (w : World) :
  gated route = true →
  flask_session w !! "rollno" = None →
  serve route now request w = (redirect_to "/", w).
Proof.
  intros Hgated Hout.
  destruct route; try done;
    unfold serve, view, get_attendance, get_cgpa, get_courses, dashboard, login_required;
    run; by rewrite Hout.
Qed.

(** What a logged-in session reads back. *)
Lemma serve_cgpa_logged_in (now : Q) (request : Request) (w : World) :
  is_Some (flask_session w !! "rollno") →
  serve GET_cgpa now request w =
    (ok (jsonify (default (PDict ∅) (flask_session w !! "cgpa_data"))), w).
Proof.
  intros Hin. unfold serve, view, get_cgpa, login_required. run.
  by rewrite bool_decide_eq_true_2.
Qed.

Lemma serve_courses_logged_in (now : Q) (request : Request) (w : World) :
  is_Some (flask_session w !! "rollno") →
  serve GET_courses now request w =
    (ok (jsonify (default (PDict ∅) (flask_session w !! "course_plan"))), w).
Proof.
  intros Hin. unfold serve, view, get_courses, login_required. run.
  by rewrite bool_decide_eq_true_2.
Qed.

Lemma serve_dashboard_logged_in (now : Q) (request : Request) (w : World) (rollno : pyval) :
  flask_session w !! "rollno" = Some rollno →
  serve GET_dashboard now request w =
    (ok (render_template "dashboard.html"
           (<["rollno" := rollno]>
              (<["attendance" := default (PList []) (flask_session w !! "attendance_data")]>
                 (<["cgpa" := default (PDict ∅) (flask_session w !! "cgpa_data")]> ∅)))), w).
Proof.
  intros Hin. unfold serve, view, dashboard, login_required. run.
  rewrite bool_decide_eq_true_2 by (by rewrite Hin). simpl. by rewrite Hin.
Qed.

(** ** The login view, continued *)

(** Every way [login] can end. *)
Lemma login_shape (request : Request) (w : World) :
  (∃ e, login_fields request = Raises e ∧ login request w = (Raises e, w))
  ∨ (∃ message code,
       (login request w).1 = Returns (error_reply request (PStr message) code) ∧
       (code = 400 ∨ code = 401 ∨ code = 500) ∧
       flask_session (login request w).2 = flask_session w)
  ∨ (∃ rollno password remember_me attendance_data cgpa_data course_plan,
       login_fields request = Returns (rollno, password, remember_me) ∧
       (login request w).1 =
         Returns (if is_json request
                  then ok (jsonify (PDict (<["ok" := PBool true]>
                                             (<["message" := PStr (text "Login successful")]> ∅))))
                  else ok (render_template "dashboard.html"
                             (<["rollno" := PStr rollno]>
                                (<["attendance" := attendance_data]>
                                   (<["cgpa" := cgpa_data]> ∅))))) ∧
       flask_session (login request w).2 =
         <["_permanent" := PBool (truthy remember_me)]>
           (<["rollno" := PStr rollno]>
              (<["course_plan" := course_plan]>
                 (<["cgpa_data" := cgpa_data]>
                    (<["attendance_data" := attendance_data]> (flask_session w)))))).
Proof.
  unfold login. run.
  destruct (login_fields request) as [[[rollno password] remember_me]|e]; [|left; eauto].
  right.
  destruct (negb (truthy (PStr rollno)) || negb (truthy password)).
  { left. exists (text "Roll number and password are required"), 400. auto. }
  destruct (negb (re_match rollno_pattern rollno)).
  { left. exists (text "Invalid roll number format."), 400. auto. }
  simpl.
  destruct (return_attendance rollno password) as [[message|raw portal|]|e]; simpl;
    try (left; eexists _, _; split; [reflexivity|]; by auto).
  destruct (get_course_plan portal) as [course_plan|e]; simpl;
    try (left; eexists _, _; split; [reflexivity|]; by auto).
  destruct (data_json raw course_plan) as [attendance_data|e]; simpl;
    try (left; eexists _, _; split; [reflexivity|]; by auto).
  destruct (return_cgpa portal) as [cgpa_data|e]; simpl;
    try (left; eexists _, _; split; [reflexivity|]; by auto).
  right. exists rollno, password, remember_me, attendance_data, cgpa_data, course_plan.
  split; [done|]. by destruct (is_json request).
Qed.

(** The two ways a POST to /login is answered: by the limiter, or by the
    view on the state with the attempt recorded. *)
Lemma serve_login_cases (now : Q) (request : Request) (w : World) :
  (serve POST_login now request w).1 = error_reply request too_many 429 ∧
    flask_session (serve POST_login now request w).2 = flask_session w
  ∨ admitted 5 300 now request w ∧
    serve POST_login now request w =
      match login request (record_attempt 300 now request w) with
      | (Returns response, w') => (response, w')
      | (Raises exc, w') => (handle_exception exc, w')
      end.
Proof.
  destruct (Nat.leb_spec 5 (length (recent_attempts now 300
    (attempts_of (login_attempts w) (remote_addr request))))) as [Hge|Hlt].
  - left. unfold serve, view. rewrite rate_limit_unfold.
    destruct (Nat.leb_spec 5 (length (recent_attempts now 300
      (attempts_of (login_attempts w) (remote_addr request))))); [done | lia].
  - right. split; [done|]. by apply serve_login_admitted.
Qed.

(** X9: a POST to /login that is not answered 200 leaves the session as it
    was (a failed attempt does not log anybody out); one that is answered
    200 leaves a session with a roll number. *)
Theorem failed_login_keeps_session (now : Q) (request : Request) (w : World) :
  (status (serve POST_login now request w).1 ≠ 200 →
   flask_session (serve POST_login now request w).2 = flask_session w)
  ∧ (status (serve POST_login now request w).1 = 200 →
     is_Some (flask_session (serve POST_login now request w).2 !! "rollno")).
Proof.
  destruct (serve_login_cases now request w) as [[Hr Hs] | [_ Hserve]].
  - rewrite Hr, status_error_reply. by split.
  - rewrite Hserve.
    destruct (login_shape request (record_attempt 300 now request w))
      as [(e & _ & Hrun) | [(message & code & Hrun & Hcode & Hs)
         | (r & p & rm & ad & cg & cp & _ & Hrun & Hs)]].
    + rewrite Hrun. split; [done|]. intros H. by apply status_handle_exception in H.
    + destruct (login request (record_attempt 300 now request w)) as [[resp|e] w'];
        simpl in *; [|done]. injection Hrun as ->. rewrite status_error_reply.
      split; [done|]. intros ->. by destruct Hcode as [? | [? | ?]].
    + destruct (login request (record_attempt 300 now request w)) as [[resp|e] w'];
        simpl in *; [|done]. injection Hrun as ->.
      split.
      * by destruct (is_json request).
      * intros _. rewrite Hs. by simplify_map_eq.
Qed.

(** X10: a POST to /login is answered with one of the statuses 200, 400,
    401, 429 and 500, and /attendance with one of 200, 302, 404 and 500. *)
Theorem response_statuses (now : Q) (request : Request) (w : World) :
  status (serve POST_login now request w).1 ∈ [200; 400; 401; 429; 500]
  ∧ status (serve GET_attendance now request w).1 ∈ [200; 302; 404; 500].
Proof.
  split.
  - destruct (serve_login_cases now request w) as [[Hr _] | [_ Hserve]].
    + rewrite Hr, status_error_reply. set_solver.
    + rewrite Hserve.
      destruct (login_shape request (record_attempt 300 now request w))
        as [(e & _ & Hrun) | [(message & code & Hrun & Hcode & _)
           | (r & p & rm & ad & cg & cp & _ & Hrun & _)]].
      * rewrite Hrun. destruct e; simpl; set_solver.
      * destruct (login request (record_attempt 300 now request w)) as [[resp|e] w'];
          simpl in *; [|done]. injection Hrun as ->. rewrite status_error_reply.
        destruct Hcode as [-> | [-> | ->]]; set_solver.
      * destruct (login request (record_attempt 300 now request w)) as [[resp|e] w'];
          simpl in *; [|done]. injection Hrun as ->.
        destruct (is_json request); simpl; set_solver.
  - unfold serve, view, get_attendance, login_required. run.
    destruct (bool_decide (is_Some (flask_session w !! "rollno"))); simpl; [|set_solver].
    destruct (negb (truthy (default (PList []) (flask_session w !! "attendance_data"))));
      simpl; [set_solver|].
    destruct (py_iter _); simpl; [|set_solver].
    destruct (py_sum "total_hours" _) as [total_hours|]; simpl; [|set_solver].
    destruct (py_sum "total_present" _) as [total_present|]; simpl; [|set_solver].
    destruct (overall_percentage total_hours total_present) as [percentage|]; simpl;
      [|set_solver].
    destruct (threshold_days total_hours total_present percentage); simpl; [|set_solver].
    destruct (with_titles _); simpl; set_solver.
Qed.

(** X17: to a JSON request, /login answers with Flask's 400 page when the
    body cannot be parsed, with the 500 page when another exception leaves
    the view, and otherwise with a JSON object that has a string [message]
    and a flag [ok] that is true exactly when the status is 200. *)
Theorem json_login_ok_flag (now : Q) (request : Request) (w : World) :
  is_json request = true →
  (json request = None ∧ (serve POST_login now request w).1 = bad_request)
  ∨ (serve POST_login now request w).1 = internal_server_error
  ∨ json_field (serve POST_login now request w).1 "ok"
      = Some (PBool (status (serve POST_login now request w).1 =? 200))
    ∧ ∃ message, json_field (serve POST_login now request w).1 "message"
                   = Some (PStr message).
Proof.
  intros Hjson.
  assert (Herr : ∀ message code, code ≠ 200 →
    json_field (error_reply request (PStr message) code) "ok"
      = Some (PBool (status (error_reply request (PStr message) code) =? 200))
    ∧ ∃ m, json_field (error_reply request (PStr message) code) "message" = Some (PStr m)).
  { intros message code Hcode. unfold error_reply. rewrite Hjson. unfold json_field. simpl.
    split; [|eexists; by simplify_map_eq].
    apply Z.eqb_neq in Hcode. rewrite Hcode. by simplify_map_eq. }
  destruct (serve_login_cases now request w) as [[Hr _] | [_ Hserve]].
  - right. right. rewrite Hr. by apply Herr.
  - rewrite Hserve.
    destruct (login_shape request (record_attempt 300 now request w))
      as [(e & Hfields & Hrun) | [(message & code & Hrun & Hcode & _)
         | (r & p & rm & ad & cg & cp & _ & Hrun & _)]].
    + rewrite Hrun. destruct e; [left | by right; left]. split; [|done].
      by apply login_fields_bad_request in Hfields as [_ Hbody].
    + destruct (login request (record_attempt 300 now request w)) as [[resp|e] w'];
        simpl in *; [|done]. injection Hrun as ->. right. right. apply Herr.
      by destruct Hcode as [-> | [-> | ->]].
    + destruct (login request (record_attempt 300 now request w)) as [[resp|e] w'];
        simpl in *; [|done]. injection Hrun as ->. right. right. rewrite Hjson.
      unfold json_field. simpl. split; [by simplify_map_eq|].
      eexists. by simplify_map_eq.
Qed.

(** X18: a login that is answered 200 makes the session permanent exactly
    when the remember-me field is truthy; for a form that is when the field
    [remember_me] is "on". *)
Theorem login_sets_permanence (now : Q) (request : Request) (w : World) :
  status (serve POST_login now request w).1 = 200 →
  ∃ rollno password remember_me,
    login_fields request = Returns (rollno, password, remember_me) ∧
    flask_session (serve POST_login now request w).2 !! "_permanent"
      = Some (PBool (truthy remember_me)) ∧
    (is_json request = false →
     truthy remember_me = bool_decide (form request !! "remember_me" = Some (text "on"))).
Proof.
  destruct (serve_login_cases now request w) as [[Hr _] | [_ Hserve]].
  { rewrite Hr, status_error_reply. done. }
  rewrite Hserve.
  destruct (login_shape request (record_attempt 300 now request w))
    as [(e & _ & Hrun) | [(message & code & Hrun & Hcode & _)
       | (r & p & rm & ad & cg & cp & Hf & Hrun & Hs)]].
  - rewrite Hrun. intros H. by apply status_handle_exception in H.
  - destruct (login request (record_attempt 300 now request w)) as [[resp|e] w'];
      simpl in *; [|done]. injection Hrun as ->. rewrite status_error_reply.
    intros ->. by destruct Hcode as [? | [? | ?]].
  - destruct (login request (record_attempt 300 now request w)) as [[resp|e] w'];
      simpl in *; [|done]. intros _. exists r, p, rm. split; [done|].
    split; [rewrite Hs; by simplify_map_eq|].
    intros Hform. rewrite (login_fields_form _ Hform) in Hf. by injection Hf as <- <- <-.
Qed.

(** The portal is called as soon as the limiter and the two checks of
    [login] are passed. *)
Lemma login_reaches_portal (now : Q) (request : Request) (w : World)
    (rollno : str) (password remember_me : pyval) :
  admitted 5 300 now request w →
  login_fields request = Returns (rollno, password, remember_me) →
  rollno ≠ [] →
  truthy password = true →
  re_match rollno_pattern rollno = true →
  ∃ rest, new_calls w (serve POST_login now request w).2
          = CallReturnAttendance rollno password :: rest.
Proof.
  intros Hadm Hfields Hroll Hpass Hmatch. unfold new_calls.
  rewrite (serve_login_admitted _ _ _ Hadm). unfold login. run. rewrite Hfields.
  rewrite (truthy_str_true _ Hroll), Hpass, Hmatch. simpl.
  destruct (return_attendance rollno password) as [[message|raw portal|]|e]; simpl;
    try (rewrite drop_app_length; by eauto).
  destruct (get_course_plan portal) as [course_plan|e]; simpl;
    [|rewrite <- !app_assoc, drop_app_length; simpl; by eauto].
  destruct (data_json raw course_plan) as [attendance_data|e]; simpl;
    [|rewrite <- !app_assoc, drop_app_length; simpl; by eauto].
  destruct (return_cgpa portal) as [cgpa_data|e]; simpl;
    [|rewrite <- !app_assoc, drop_app_length; simpl; by eauto].
  destruct (is_json request); simpl;
    rewrite <- !app_assoc, drop_app_length; simpl; by eauto.
Qed.

(** X11: serving a POST to /login calls [return_attendance(rollno,
    password)] exactly when the limiter admits the request, its fields are
    read as that roll number (stripped) and that password, both are
    non-empty, and the roll number has the documented format, its digits
    being the decimal digits of Unicode. *)
Theorem portal_called_iff (now : Q) (request : Request) (w : World)
    (rollno : str) (password : pyval) :
  CallReturnAttendance rollno password ∈ new_calls w (serve POST_login now request w).2
  ↔ admitted 5 300 now request w ∧
    ∃ remember_me,
      login_fields request = Returns (rollno, password, remember_me) ∧
      rollno ≠ [] ∧ truthy password = true ∧ rollno_format rollno.
Proof.
  split.
  - intros Hcall.
    destruct (login_calls_portal _ _ _ _ _ Hcall) as (Hadm & rm & Hf & Hr & Hp & Hm).
    split; [done|]. exists rm. repeat split; try done.
    destruct (login_fields_stripped _ _ _ _ Hf) as [t ->].
    by apply re_match_rollno_strip.
  - intros (Hadm & rm & Hf & Hr & Hp & Hformat).
    destruct (login_reaches_portal now request w rollno password rm) as [rest ->];
      try done.
    + destruct (login_fields_stripped _ _ _ _ Hf) as [t ->].
      by apply re_match_rollno_strip.
    + apply list_elem_of_here.
Qed.

(** X7: what a successful login stores is what the other pages show: after
    it, /cgpa answers with the CGPA data of [return_cgpa], /courses with the
    course plan of [get_course_plan], and /dashboard renders the roll
    number with the attendance data of [data_json] and the CGPA data. *)
Theorem login_then_read (now : Q) (request : Request) (w : World)
    (rollno : str) (password : pyval)
    (raw : attendance_raw) (portal : session_obj)
    (course_plan attendance_data cgpa_data : pyval)
    (now' : Q) (request' : Request) :
  CallReturnAttendance rollno password ∈ new_calls w (serve POST_login now request w).2 →
  return_attendance rollno password = Returns (RTuple raw portal) →
  get_course_plan portal = Returns course_plan →
  data_json raw course_plan = Returns attendance_data →
  return_cgpa portal = Returns cgpa_data →
  let after := (serve POST_login now request w).2 in
  serve GET_cgpa now' request' after = (ok (jsonify cgpa_data), after)
  ∧ serve GET_courses now' request' after = (ok (jsonify course_plan), after)
  ∧ serve GET_dashboard now' request' after =
      (ok (render_template "dashboard.html"
             (<["rollno" := PStr rollno]>
                (<["attendance" := attendance_data]> (<["cgpa" := cgpa_data]> ∅)))),
       after).
Proof.
  intros Hcall H1 H2 H3 H4 after.
  destruct (login_calls_portal _ _ _ _ _ Hcall) as (Hadm & rm & Hf & Hr & Hp & Hm).
  destruct (login_after_checks now request w rollno password rm Hadm Hf Hr Hp Hm)
    as (_ & Htuple & _).
  destruct (Htuple _ _ _ _ _ H1 H2 H3 H4) as (_ & _ & Hsession).
  fold after in Hsession.
  assert (Hroll : flask_session after !! "rollno" = Some (PStr rollno))
    by (rewrite Hsession; by simplify_map_eq).
  assert (Hcg : flask_session after !! "cgpa_data" = Some cgpa_data)
    by (rewrite Hsession; by simplify_map_eq).
  assert (Hcp : flask_session after !! "course_plan" = Some course_plan)
    by (rewrite Hsession; by simplify_map_eq).
  assert (Had : flask_session after !! "attendance_data" = Some attendance_data)
    by (rewrite Hsession; by simplify_map_eq).
  split; [|split].
  - rewrite serve_cgpa_logged_in by (by rewrite Hroll). by rewrite Hcg.
  - rewrite serve_courses_logged_in by (by rewrite Hroll). by rewrite Hcp.
  - rewrite (serve_dashboard_logged_in _ _ _ _ Hroll). by rewrite Had, Hcg.
Qed.

(** *** White space around the roll number *)

Lemma lstrip_no_space (s : str) :
  match s with
  | [] => True
  | c :: _ => is_space c = false
  end →
  lstrip s = s.
Proof. destruct s as [|c s]; [done|]. simpl. by intros ->. Qed.

Lemma rstrip_keeps_head (c : N) (s : str) :
  is_space c = false → ∃ t, rstrip (c :: s) = c :: t.
Proof. intros Hc. simpl. rewrite Hc. destruct (rstrip s); eauto. Qed.

Lemma lstrip_head (s : str) :
  match lstrip s with
  | [] => True
  | c :: _ => is_space c = false
  end.
Proof.
  induction s as [|c s IH]; [done|]. simpl.
  destruct (is_space c) eqn:Hc; [done|]. simpl. done.
Qed.

Lemma rstrip_idempotent (s : str) : rstrip (rstrip s) = rstrip s.
Proof.
  induction s as [|c s IH]; [done|]. simpl.
  destruct (rstrip s) as [|b t] eqn:Hr.
  - destruct (is_space c) eqn:Hc; [done|]. simpl. by rewrite Hc.
  - change (rstrip (c :: b :: t)) with
      (match rstrip (b :: t) with
       | [] => if is_space c then [] else [c]
       | u => c :: u
       end).
    by rewrite IH.
Qed.

Lemma strip_idempotent (s : str) : strip (strip s) = strip s.
Proof.
  unfold strip.
  rewrite (lstrip_no_space (rstrip (lstrip s))).
  - apply rstrip_idempotent.
  - pose proof (lstrip_head s) as Hhead. destruct (lstrip s) as [|c t]; [done|].
    destruct (rstrip_keeps_head c t Hhead) as [u ->]. done.
Qed.

(** The answer to a POST to /login depends on the request through its
    address, its kind (JSON or form) and the three fields only. *)
Lemma serve_login_depends_on_fields (now : Q) (request1 request2 : Request) (w : World) :
  remote_addr request1 = remote_addr request2 →
  is_json request1 = is_json request2 →
  login_fields request1 = login_fields request2 →
  serve POST_login now request1 w = serve POST_login now request2 w.
Proof.
  intros Hip Hjson Hfields. unfold serve, view. rewrite !rate_limit_unfold.
  unfold login, error_reply. rewrite Hip, Hjson, Hfields. done.
Qed.

(** X12: white space around the roll number is ignored: a request whose
    roll number is [s] is answered, and changes the state, exactly as the
    same request with the stripped roll number, for forms and for JSON
    bodies alike. *)
Theorem login_ignores_surrounding_space (now : Q) (w : World) (ip : string) (s : str)
    (fields : gmap string str) (body : gmap string pyval) :
  serve POST_login now (mkRequest ip false None (<["rollno" := s]> fields)) w
    = serve POST_login now (mkRequest ip false None (<["rollno" := strip s]> fields)) w
  ∧ serve POST_login now (mkRequest ip true (Some (PDict (<["rollno" := PStr s]> body))) ∅) w
    = serve POST_login now
        (mkRequest ip true (Some (PDict (<["rollno" := PStr (strip s)]> body))) ∅) w.
Proof.
  split; apply serve_login_depends_on_fields; try done.
  - rewrite !login_fields_form by done. simpl.
    rewrite !lookup_insert_eq. simpl. rewrite strip_idempotent.
    by rewrite !lookup_insert_ne.
  - rewrite (login_fields_json _ (<["rollno" := PStr s]> body)) by done.
    rewrite (login_fields_json _ (<["rollno" := PStr (strip s)]> body)) by done.
    rewrite !lookup_insert_eq. simpl. rewrite strip_idempotent.
    by rewrite !lookup_insert_ne.
Qed.

(** X21: on a string that has not been stripped, the pattern of line 83
    accepts the roll numbers of the documented format (whose digits are the
    decimal digits of Unicode) and, because of [$], the same followed by one
    newline; nothing else. *)
Theorem rollno_pattern_language (s : str) :
  re_match rollno_pattern s = true ↔
  rollno_format s ∨ ∃ roll, rollno_format roll ∧ s = roll ++ [10%N].
Proof. apply re_match_rollno. Qed.

(** ** The attendance view, continued *)

(** A sum that returns has met only records that hold a number. *)
Lemma sum_from_summable (acc : number) (key : string) (items : list pyval) (sum : number) :
  sum_from acc key items = Returns sum → Forall (summable key) items.
Proof.
  revert acc. induction items as [|item items IH]; intros acc; simpl; [constructor|].
  intros Hsum.
  destruct item as [| | | | | |d]; simpl in Hsum; try done.
  destruct (d !! key) as [x|] eqn:Hx; simpl in Hsum; [|done].
  destruct (as_number x) as [n|] eqn:Hn; simpl in Hsum; [|done].
  destruct (py_add acc n) as [acc'|] eqn:Hadd; simpl in Hsum; [|done].
  constructor; [by exists d, x, n | by apply (IH acc')].
Qed.

(** X13: for a logged-in session whose stored attendance data is a
    non-empty list, /attendance answers 200 only when every record is a
    dictionary with numeric [total_hours] and [total_present]; a record
    that is no dictionary, a missing key or a value that is not a number is
    answered 500 "Failed to fetch attendance data", and the state is
    unchanged. *)
Theorem attendance_malformed_record (now : Q) (request : Request) (w : World)
    (records : list pyval) :
  is_Some (flask_session w !! "rollno") →
  flask_session w !! "attendance_data" = Some (PList records) →
  records ≠ [] →
  (status (serve GET_attendance now request w).1 = 200 →
   Forall (λ r, summable "total_hours" r ∧ summable "total_present" r) records)
  ∧ (¬ Forall (λ r, summable "total_hours" r ∧ summable "total_present" r) records →
     serve GET_attendance now request w =
       (mkResponse (jsonify (PDict
          (<["error" := PStr (text "Failed to fetch attendance data")]> ∅))) 500, w)).
Proof.
  intros Hin Hdata Hne.
  assert (Htruthy : truthy (PList records) = true) by by destruct records.
  assert (Hsums : ∀ h p,
    py_sum "total_hours" records = Returns h →
    py_sum "total_present" records = Returns p →
    Forall (λ r, summable "total_hours" r ∧ summable "total_present" r) records).
  { intros h p Hh Hp. apply Forall_and. split; eapply sum_from_summable; eauto. }
  split.
  - destruct (serve_get_attendance now request w) as (response & Hrun & ->). cbn [fst].
    intros Hstatus.
    destruct (get_attendance_200 _ _ _ Hrun Hstatus)
      as (records' & h & p & _ & _ & _ & _ & Hdata' & _ & Hh & Hp & _).
    rewrite Hdata in Hdata'. injection Hdata' as <-. by apply (Hsums h p).
  - intros Hbad.
    unfold serve, view, get_attendance, login_required.
    unfold bind, ret, lift, try_except, session_get, session_contains.
    rewrite bool_decide_eq_true_2 by done. cbn [negb]. rewrite Hdata.
    cbn [default from_option id]. rewrite Htruthy. cbn [negb py_iter].
    destruct (py_sum "total_hours" records) as [h|] eqn:Hh; [|done].
    destruct (py_sum "total_present" records) as [p|] eqn:Hp; [|done].
    destruct Hbad. by apply (Hsums h p).
Qed.

Lemma sum_from_integers (acc : Z) (key : string) (items : list pyval) (values : list Z) :
  Forall2 (λ item value, ∃ d, item = PDict d ∧ d !! key = Some (PInt value)) items values →
  sum_from (Int acc) key items = Returns (Int (acc + total values)).
Proof.
  intros Hall. revert acc.
  induction Hall as [|item value items values (d & -> & Hv) _ IH]; intros acc; simpl.
  - by rewrite Z.add_0_r.
  - rewrite Hv. simpl. rewrite IH. by rewrite Z.add_assoc.
Qed.

(** X14: when every stored record has integer [total_hours] and
    [total_present], /attendance answers 200 or 500, and a 200 answer
    reports as [total_days] and [attended_days] the integer sums of these
    fields over the records. *)
Theorem attendance_totals_are_sums (now : Q) (request : Request) (w : World)
    (records : list pyval) (hours present : list Z) :
  is_Some (flask_session w !! "rollno") →
  flask_session w !! "attendance_data" = Some (PList records) →
  records ≠ [] →
  Forall2 (λ r h, ∃ d, r = PDict d ∧ d !! "total_hours" = Some (PInt h)) records hours →
  Forall2 (λ r p, ∃ d, r = PDict d ∧ d !! "total_present" = Some (PInt p)) records present →
  (status (serve GET_attendance now request w).1 = 200
   ∨ status (serve GET_attendance now request w).1 = 500)
  ∧ (status (serve GET_attendance now request w).1 = 200 →
     json_field (serve GET_attendance now request w).1 "total_days"
       = Some (PInt (total hours))
     ∧ json_field (serve GET_attendance now request w).1 "attended_days"
       = Some (PInt (total present))).
Proof.
  intros Hin Hdata Hne Hhours Hpresent.
  pose proof (sum_from_integers 0 _ _ _ Hhours) as Hh.
  pose proof (sum_from_integers 0 _ _ _ Hpresent) as Hp.
  destruct (serve_attendance_totals now request w records _ _ Hin Hdata Hne Hh Hp)
    as (subjects & _ & ->).
  destruct (statistics _ _) as [[[percentage need] bunkable]|]; [|by split; [right|]].
  split; [by left|]. intros _.
  destruct (json_field_summary subjects (Int (0 + total hours)) (Int (0 + total present))
              percentage need bunkable) as (_ & Hdays & Hattended & _).
  by rewrite Hdays, Hattended.
Qed.

(** *** What the two counters mean *)


(** X16: for integer totals with 0 <= total_present <= total_hours <= 200
    and a percentage not below 75, [bunkable_days] is the greatest number
    [b] of further hours, all missed, after which attendance is still at
    least 75%: [total_present >= 0.75 * (total_hours + b)]. *)
Theorem bunkable_days_greatest (h p : Z) :
  0 ≤ p ≤ h → h ≤ 200 →
  ∃ percentage need bunkable,
    statistics (Int h) (Int p) = Returns (percentage, need, bunkable) ∧
    (py_lt percentage (Int 75) = false →
     3 * (h + bunkable) ≤ 4 * p ∧
     ∀ m : Z, 3 * (h + m) ≤ 4 * p → m ≤ bunkable).
Proof.
  intros Hp Hh.
  destruct (statistics_small h p Hp Hh)
    as (percentage & need & bunkable & value & Hstat & _ & _ & Hbranch & _ & Hbunk).
  exists percentage, need, bunkable. split; [done|].
  intros Hge. rewrite Hbranch in Hge.
  destruct (exact_bunkable_days_greatest (inject_Z h) (inject_Z p) Hge) as [Hkeep Hmost].
  rewrite <- Hbunk in Hkeep, Hmost. split.
  - assert (Hq : (3 * (inject_Z h + inject_Z bunkable) <= 4 * inject_Z p)%Q) by lra.
    rewrite <- !inject_Z_plus in Hq.
    change 3%Q with (inject_Z 3) in Hq. change 4%Q with (inject_Z 4) in Hq.
    rewrite <- !inject_Z_mult in Hq. by rewrite Zle_Qle.
  - intros m Henough. apply Hmost.
    assert (Hq : (inject_Z (3 * (h + m)) <= inject_Z (4 * p))%Q) by (by rewrite <- Zle_Qle).
    rewrite !inject_Z_mult, !inject_Z_plus in Hq.
    change (inject_Z 3) with 3%Q in Hq. change (inject_Z 4) with 4%Q in Hq. lra.
Qed.

(** X19: for integer totals with 0 <= total_present <= total_hours <= 200
    the percentage is a finite number between 0 and 100. *)
Theorem percentage_range (h p : Z) :
  0 ≤ p ≤ h → h ≤ 200 →
  ∃ percentage need bunkable value,
    statistics (Int h) (Int p) = Returns (percentage, need, bunkable) ∧
    finite_value percentage = Returns value ∧
    (0 <= value <= 100)%Q.
Proof.
  intros Hp Hh.
  destruct (statistics_small h p Hp Hh)
    as (percentage & need & bunkable & value & Hstat & Hvalue & Hrange & _).
  by exists percentage, need, bunkable, value.
Qed.

(** ** The session, continued *)

(** X22: stored attendance data always belongs to a logged-in session: if
    that holds of a state, it holds after any sequence of requests. *)
Theorem serve_all_session_consistent (requests : list (Route * Q * Request)) (w : World) :
  session_consistent w → session_consistent (serve_all requests w).
Proof.
  revert w. induction requests as [|[[route now] request] requests IH]; intros w Hw;
    simpl; [done|].
  apply IH. by apply serve_session_consistent.
Qed.

End Bunker.

(** * The properties on the sample inputs *)

Abbreviation sample_serve :=
  (serve sample_decimal portal_accepts sample_course_plan sample_data_json sample_cgpa).

Abbreviation refusing_serve :=
  (serve sample_decimal portal_refuses sample_course_plan sample_data_json sample_cgpa).

Lemma fresh_admits (now : Q) (request : Request) : admitted 5 300 now request fresh.
Proof.
  unfold admitted, attempts_of, fresh. cbn [login_attempts].
  rewrite lookup_empty. simpl. lia.
Defined.

(** The sixth attempt inside the window, with good credentials and a
    portal that would accept them, is still answered 429. *)
Lemma login_rate_limited_witness :
  json_field
    (sample_serve POST_login 1000 (json_request (credentials "21IT066" "secret"))
       five_attempts).1 "message"
  = Some (PStr (text "Too many login attempts. Please try again later."))
  ∧ status (sample_serve POST_login 1000 (json_request (credentials "21IT066" "secret"))
              five_attempts).1 = 429.
Proof.
  destruct (login_rate_limited sample_decimal portal_accepts sample_course_plan
              sample_data_json sample_cgpa 1000
              (json_request (credentials "21IT066" "secret"))
              five_attempts [710; 760; 820; 900; 990]%Q) as [Hserve Hstatus].
  - reflexivity.
  - vm_compute. do 5 apply sublist_skip. apply sublist_nil.
  - repeat constructor.
  - split; [|exact Hstatus]. rewrite Hserve. reflexivity.
Defined.

(** The first attempt of an address is recorded. *)
Lemma login_attempt_recorded_witness :
  attempts_of
    (login_attempts
       (sample_serve POST_login 1000 (json_request (credentials "21IT066" "secret")) fresh).2)
    "203.0.113.7" = [1000%Q].
Proof.
  refine (proj1 (proj2 (login_attempt_recorded sample_decimal portal_accepts
                          sample_course_plan sample_data_json sample_cgpa 1000
                          (json_request (credentials "21IT066" "secret")) fresh _))).
  intros H. vm_compute in H. discriminate H.
Defined.

Lemma dashes_not_a_rollno : ¬ rollno_format sample_decimal (text "21-IT-066").
Proof.
  intros H. apply rollno_format_re_match in H. vm_compute in H. discriminate H.
Defined.

(** A roll number with dashes is refused before the portal is contacted. *)
Lemma login_rejects_malformed_rollno_witness :
  json_field
    (sample_serve POST_login 1000 (json_request (credentials "21-IT-066" "secret")) fresh).1
    "message" = Some (PStr (text "Invalid roll number format."))
  ∧ status (sample_serve POST_login 1000 (json_request (credentials "21-IT-066" "secret"))
              fresh).1 = 400
  ∧ portal_calls
      (sample_serve POST_login 1000 (json_request (credentials "21-IT-066" "secret")) fresh).2
    = [].
Proof.
  destruct (login_rejects_malformed_rollno sample_decimal portal_accepts sample_course_plan
              sample_data_json sample_cgpa 1000
              (json_request (credentials "21-IT-066" "secret")) fresh
              (text "21-IT-066") (PStr (text "secret")))
    as (Hserve & Hstatus & Hcalls & _).
  - apply fresh_admits.
  - exists (credentials "21-IT-066" "secret"). split; [reflexivity|].
    split; [right; reflexivity | reflexivity].
  - discriminate.
  - reflexivity.
  - exact dashes_not_a_rollno.
  - split; [rewrite Hserve; reflexivity|]. split; [exact Hstatus | exact Hcalls].
Defined.

(** C3 as stated fails: from an address with five attempts in the window,
    a POST with a malformed roll number is answered 429, not 400. *)
Lemma malformed_rollno_rate_limited :
  submits (json_request (credentials "21-IT-066" "secret"))
    (text "21-IT-066") (PStr (text "secret"))
  ∧ ¬ rollno_format sample_decimal (text "21-IT-066")
  ∧ re_match (rollno_pattern sample_decimal) (text "21-IT-066") = false
  ∧ status (sample_serve POST_login 1000 (json_request (credentials "21-IT-066" "secret"))
              five_attempts).1 = 429.
Proof.
  split.
  { exists (credentials "21-IT-066" "secret"). split; [reflexivity|].
    split; [right; reflexivity | reflexivity]. }
  split; [exact dashes_not_a_rollno|]. split; reflexivity.
Qed.

(** The check is made on the stripped roll number: [" 21IT066 "] does not
    match the pattern, yet it is not refused; the portal is asked about
    ["21IT066"]. *)
Lemma padded_rollno_accepted :
  re_match (rollno_pattern sample_decimal) (text " 21IT066 ") = false
  ∧ status (sample_serve POST_login 1000 (json_request (credentials " 21IT066 " "secret"))
              fresh).1 = 200
  ∧ head (portal_calls
            (sample_serve POST_login 1000 (json_request (credentials " 21IT066 " "secret"))
               fresh).2)
    = Some (CallReturnAttendance (text "21IT066") (PStr (text "secret"))).
Proof. repeat split; reflexivity. Qed.

(** [\d] is not [0-9]: with the Arabic-Indic digits in the table, a roll
    number written with them passes the check. *)
Lemma unicode_digits_accepted :
  re_match (rollno_pattern sample_decimal)
    ([1634; 1633]%N ++ text "IT" ++ [1632; 1638; 1638]%N) = true.
Proof. reflexivity. Qed.

(** C7 as stated fails: from an address with five attempts in the window,
    a POST without roll number and password is answered 429, not 400. *)
Lemma missing_fields_rate_limited :
  submits (json_request ∅) [] (PStr [])
  ∧ status (sample_serve POST_login 1000 (json_request ∅) five_attempts).1 = 429.
Proof.
  split; [|reflexivity].
  exists ∅. split; [reflexivity|]. split; [left; split; reflexivity | reflexivity].
Qed.

(** A form without password is refused and the session stays empty. *)
Lemma login_requires_fields_witness :
  (sample_serve POST_login 1000 (form_request (<["rollno" := text " 21IT066 "]> ∅)) fresh).1
    = mkResponse
        (render_template "index.html"
           (<["error" := PStr (text "Roll number and password are required")]> ∅)) 400
  ∧ flask_session
      (sample_serve POST_login 1000 (form_request (<["rollno" := text " 21IT066 "]> ∅))
         fresh).2
    = ∅.
Proof.
  destruct (login_requires_fields sample_decimal portal_accepts sample_course_plan
              sample_data_json sample_cgpa 1000
              (form_request (<["rollno" := text " 21IT066 "]> ∅)) fresh
              (text " 21IT066 ") (PStr []))
    as (Hserve & _ & Hsession & _).
  - apply fresh_admits.
  - split; reflexivity.
  - right. reflexivity.
  - split; [rewrite Hserve; reflexivity | exact Hsession].
Defined.

(** A JSON body that cannot be parsed is answered by Flask's own 400 page,
    and a body that is a list, or has a number as roll number, by the 500
    page: the message of C7 is not given then. *)
Lemma login_unreadable_fields (now : Q) :
  sample_serve POST_login now (mkRequest "203.0.113.7" true None ∅) fresh
    = (bad_request, record_attempt 300 now (mkRequest "203.0.113.7" true None ∅) fresh)
  ∧ (sample_serve POST_login now (mkRequest "203.0.113.7" true (Some (PList [])) ∅) fresh).1
    = internal_server_error
  ∧ (sample_serve POST_login now (json_request (<["rollno" := PInt 123]> ∅)) fresh).1
    = internal_server_error.
Proof.
  split; [|split].
  - apply login_unparseable_body; [apply fresh_admits | done | done].
  - erewrite login_body_not_object; [done | apply fresh_admits | done | done | done].
  - erewrite (login_rollno_not_string _ _ _ _ _ _ _ _ (<["rollno" := PInt 123]> ∅) (PInt 123));
      [done | apply fresh_admits | done | done | done | done].
Qed.

(** A login the portal accepts stores the roll number in the session. *)
Lemma login_scraper_outcomes_witness :
  status (sample_serve POST_login 1000 (json_request (credentials "21IT066" "secret")) fresh).1
    = 200
  ∧ flask_session
      (sample_serve POST_login 1000 (json_request (credentials "21IT066" "secret")) fresh).2
      !! "rollno" = Some (PStr (text "21IT066")).
Proof.
  destruct (login_scraper_outcomes sample_decimal portal_accepts sample_course_plan
              sample_data_json sample_cgpa 1000
              (json_request (credentials "21IT066" "secret")) fresh
              (text "21IT066") (PStr (text "secret")))
    as (_ & Hok & _).
  - vm_compute. apply list_elem_of_here.
  - destruct (Hok () () _ _ _ eq_refl eq_refl eq_refl eq_refl)
      as (Hstatus & _ & _ & _ & Hrollno).
    split; [exact Hstatus | exact Hrollno].
Defined.

(** A login the portal refuses is answered 401 with the portal's message. *)
Lemma login_refused_message :
  (refusing_serve POST_login 1000 (json_request (credentials "21IT066" "guess")) fresh).1
  = mkResponse
      (jsonify (PDict (<["ok" := PBool false]>
                         (<["message" := PStr (text "Invalid credentials")]> ∅)))) 401.
Proof. reflexivity. Qed.

(** Two subjects with 60+40 hours and 42+28 attended: 20 more sessions. *)
Lemma attendance_statistics_witness :
  json_field
    (sample_serve GET_attendance 1000 (json_request ∅)
       (logged_in [subject_record "19Z301" "Calculus" 60 42;
                   subject_record "19Z302" "Physics" 40 28])).1
    "need_days" = Some (PInt 20).
Proof.
  destruct (attendance_statistics sample_decimal portal_accepts sample_course_plan
              sample_data_json sample_cgpa 1000 (json_request ∅)
              (logged_in [subject_record "19Z301" "Calculus" 60 42;
                          subject_record "19Z302" "Physics" 40 28])
              [subject_record "19Z301" "Calculus" 60 42;
               subject_record "19Z302" "Physics" 40 28]
              (Int 100) (Int 70))
    as (_ & H70 & _).
  - intros _. vm_compute. eauto.
  - reflexivity.
  - reflexivity.
  - reflexivity.
  - destruct (H70 eq_refl eq_refl) as (_ & _ & Hneed & _). exact Hneed.
Defined.

(** C2 as stated fails: with 5.2 hours of which 3.9 attended, the
    percentage is 75 and the quotient (3.9 - 0.75 * 5.2) / 0.75 is a small
    negative number; its floor is -1, but [int] truncates it to 0. In exact
    arithmetic on the same two floats the percentage is below 75 and one
    more session is needed, where 0 is reported. *)
Lemma bunkable_days_not_floor :
  let response :=
    (sample_serve GET_attendance 1000 (json_request ∅)
       (logged_in [float_record 5.2 3.9])).1 in
  py_sum "total_hours" [float_record 5.2 3.9] = Returns (Float 5.2)
  ∧ py_sum "total_present" [float_record 5.2 3.9] = Returns (Float 3.9)
  ∧ status response = 200
  ∧ json_field response "percentage" = Some (PFloat 75)
  ∧ json_field response "need_days" = Some (PInt 0)
  ∧ json_field response "bunkable_days" = Some (PInt 0)
  ∧ (∃ value, float_value ((3.9 - 0.75 * 5.2) / 0.75) = Some value ∧ Qfloor value = -1)
  ∧ (∃ hours present,
       float_value 5.2 = Some hours ∧ float_value 3.9 = Some present ∧
       exact_need_days hours present = 1).
Proof.
  repeat (split; [reflexivity|]). split.
  - eexists. split; [vm_compute; reflexivity|]. vm_compute. reflexivity.
  - eexists _, _. split; [vm_compute; reflexivity|].
    split; [vm_compute; reflexivity|]. vm_compute. reflexivity.
Qed.



(** Integer totals too large for a float are answered 500. *)
Lemma attendance_overflow :
  sample_serve GET_attendance 1000 (json_request ∅)
    (logged_in [subject_record "19Z301" "Calculus" (10 ^ 400) (10 ^ 400)])
  = (mkResponse (jsonify (PDict
       (<["error" := PStr (text "Failed to fetch attendance data")]> ∅))) 500,
     logged_in [subject_record "19Z301" "Calculus" (10 ^ 400) (10 ^ 400)]).
Proof. vm_compute. reflexivity. Qed.

(** C8 as stated fails: a record that has both a name and a course title
    is displayed under its course title, not under its name. *)
Lemma display_name_not_name_first :
  display_names
    (sample_serve GET_attendance 1000 (json_request ∅)
       (logged_in [subject_record "19Z301" "Calculus" 40 36])).1
  ≠ [Some (first_present ["name"; "course_title"; "original_name"]
             (<["name" := PStr (text "19Z301")]>
                (<["course_title" := PStr (text "Calculus")]>
                   (<["total_hours" := PInt 40]> (<["total_present" := PInt 36]> ∅))))
             (PStr (text "Unknown Course")))].
Proof. vm_compute. discriminate. Qed.

Lemma attendance_display_names_witness :
  display_names
    (sample_serve GET_attendance 1000 (json_request ∅)
       (logged_in [subject_record "19Z301" "Calculus" 40 36])).1
  = [Some (PStr (text "Calculus"))]
  ∧ ∃ records subjects,
      flask_session (logged_in [subject_record "19Z301" "Calculus" 40 36]) !! "attendance_data"
        = Some (PList records) ∧
      json_field
        (sample_serve GET_attendance 1000 (json_request ∅)
           (logged_in [subject_record "19Z301" "Calculus" 40 36])).1
        "subjects" = Some (PList subjects) ∧
      Forall2
        (λ record subject,
           ∃ d, record = PDict d ∧
                subject = PDict (<["display_name" :=
                    first_present ["course_title"; "name"; "original_name"] d
                      (PStr (text "Unknown Course"))]> d))
        records subjects.
Proof.
  split; [reflexivity|].
  apply (attendance_display_names sample_decimal portal_accepts sample_course_plan
           sample_data_json sample_cgpa 1000 (json_request ∅)
           (logged_in [subject_record "19Z301" "Calculus" 40 36])).
  reflexivity.
Defined.

(** C4 as stated fails: a logged-in session without CGPA data gets 200
    from /cgpa, and one without a course plan gets 200 from /courses. *)
Lemma cgpa_missing_not_404 :
  is_Some (flask_session (logged_in []) !! "rollno")
  ∧ flask_session (logged_in []) !! "cgpa_data" = None
  ∧ flask_session (logged_in []) !! "course_plan" = None
  ∧ status (sample_serve GET_cgpa 1000 (json_request ∅) (logged_in [])).1 ≠ 404
  ∧ status (sample_serve GET_courses 1000 (json_request ∅) (logged_in [])).1 ≠ 404.
Proof.
  split; [vm_compute; eauto|]. split; [reflexivity|]. split; [reflexivity|].
  split; vm_compute; discriminate.
Qed.

Lemma missing_session_data_witness :
  status (sample_serve GET_attendance 1000 (json_request ∅) (logged_in [])).1 = 404
  ∧ sample_serve GET_cgpa 1000 (json_request ∅) (logged_in []) =
      (mkResponse (jsonify (PDict ∅)) 200, logged_in []).
Proof.
  destruct (missing_session_data sample_decimal portal_accepts sample_course_plan
              sample_data_json sample_cgpa 1000 (json_request ∅) (logged_in []))
    as (Hattendance & Hcgpa & _).
  - vm_compute. eauto.
  - split.
    + rewrite Hattendance; reflexivity.
    + apply Hcgpa. reflexivity.
Defined.

(** After a logout, a refused login and a look at the API, the dashboard
    still leads home. *)
Lemma logout_clears_session_witness :
  (refusing_serve GET_dashboard 2000 (json_request ∅)
     (serve_all sample_decimal portal_refuses sample_course_plan sample_data_json sample_cgpa
        [(POST_login, 1100%Q, json_request (credentials "21IT066" "guess"));
         (GET_attendance, 1200%Q, json_request ∅)]
        (refusing_serve GET_logout 1000 (json_request ∅)
           (logged_in [subject_record "19Z301" "Calculus" 40 36])).2)).1
  = redirect_to "/".
Proof.
  refine (proj2 (proj2 (proj2 (logout_clears_session sample_decimal portal_refuses
                                 sample_course_plan sample_data_json sample_cgpa
                                 1000 (json_request ∅)
                                 (logged_in [subject_record "19Z301" "Calculus" 40 36])
                                 [(POST_login, 1100%Q, json_request (credentials "21IT066" "guess"));
                                  (GET_attendance, 1200%Q, json_request ∅)]
                                 2000 (json_request ∅) _)))).
  split; [intros _ H; vm_compute in H; discriminate H|].
  split; [discriminate|]. exact I.
Defined.

(** * The further properties on the sample inputs *)

Lemma fresh_bounded : attempts_bounded 5 fresh.
Proof.
  intros ip. unfold attempts_of, fresh. cbn [login_attempts].
  rewrite lookup_empty. simpl. lia.
Defined.

Lemma fresh_consistent : session_consistent fresh.
Proof. intros [x H]. vm_compute in H. discriminate H. Defined.

Lemma login_other_addresses_untouched_witness :
  attempts_of (login_attempts (sample_serve POST_login 1000 other_client five_attempts).2)
    "203.0.113.7"
  = attempts_of (login_attempts five_attempts) "203.0.113.7".
Proof.
  apply (login_other_addresses_untouched sample_decimal portal_accepts sample_course_plan
           sample_data_json sample_cgpa 1000 other_client five_attempts "203.0.113.7").
  discriminate.
Defined.

Lemma serve_all_attempts_bounded_witness :
  attempts_bounded 5
    (serve_all sample_decimal portal_refuses sample_course_plan sample_data_json sample_cgpa
       ((λ t, (POST_login, t, json_request (credentials "21IT066" "guess")))
          <$> [1000; 1001; 1002; 1003; 1004; 1005; 1006]%Q)
       fresh).
Proof.
  apply (serve_all_attempts_bounded sample_decimal portal_refuses sample_course_plan
           sample_data_json sample_cgpa). apply fresh_bounded.
Defined.

Lemma rate_limit_expires_witness :
  attempts_of
    (login_attempts
       (sample_serve POST_login 1300 (json_request (credentials "21IT066" "secret"))
          five_attempts).2)
    "203.0.113.7" = [1300%Q].
Proof.
  refine (proj2 (proj2 (rate_limit_expires sample_decimal portal_accepts sample_course_plan
                          sample_data_json sample_cgpa 1300
                          (json_request (credentials "21IT066" "secret")) five_attempts _))).
  vm_compute. do 5 (constructor; [discriminate|]). constructor.
Defined.

Lemma sixth_attempt_rejected_witness :
  (refusing_serve POST_login 1000
     (json_request (credentials "21IT066" "secret"))
     (serve_all sample_decimal portal_refuses sample_course_plan sample_data_json sample_cgpa
        ((λ a, (POST_login, a.1, a.2))
           <$> [(710%Q, json_request (credentials "21IT066" "a"));
                (760%Q, json_request (credentials "21IT066" "b"));
                (820%Q, json_request ∅);
                (900%Q, json_request (credentials "x" "c"));
                (990%Q, json_request (credentials "21IT066" "d"))])
        fresh)).1
  = mkResponse
      (jsonify (PDict (<["ok" := PBool false]>
         (<["message" :=
              PStr (text "Too many login attempts. Please try again later.")]> ∅))))
      429.
Proof.
  apply (sixth_attempt_rejected sample_decimal portal_refuses sample_course_plan
           sample_data_json sample_cgpa 1000 (json_request (credentials "21IT066" "secret"))).
  - reflexivity.
  - reflexivity.
  - do 5 (constructor; [split; [reflexivity | split; [reflexivity | discriminate]]|]).
    constructor.
Defined.

Lemma login_required_redirects_witness :
  sample_serve GET_cgpa 1000 (json_request ∅) fresh = (redirect_to "/", fresh).
Proof.
  apply (login_required_redirects sample_decimal portal_accepts sample_course_plan
           sample_data_json sample_cgpa GET_cgpa 1000 (json_request ∅) fresh); reflexivity.
Defined.

Lemma login_then_read_witness :
  (sample_serve GET_cgpa 1001 (json_request ∅)
     (sample_serve POST_login 1000 (json_request (credentials "21IT066" "secret")) fresh).2).1
  = ok (jsonify (PDict (<["cgpa" := PFloat 8.5]> ∅))).
Proof.
  destruct (login_then_read sample_decimal portal_accepts sample_course_plan
              sample_data_json sample_cgpa
              1000 (json_request (credentials "21IT066" "secret")) fresh
              (text "21IT066") (PStr (text "secret")) () ()
              (PDict (<["19Z301" := PStr (text "Calculus")]> ∅))
              (PList [subject_record "19Z301" "Calculus" 40 36])
              (PDict (<["cgpa" := PFloat 8.5]> ∅))
              1001 (json_request ∅))
    as (Hcgpa & _).
  - vm_compute. apply list_elem_of_here.
  - reflexivity.
  - reflexivity.
  - reflexivity.
  - reflexivity.
  - rewrite Hcgpa. reflexivity.
Defined.

Lemma only_login_writes_table_witness :
  login_attempts (sample_serve GET_logout 1000 (json_request ∅) five_attempts).2
  = login_attempts five_attempts.
Proof.
  refine (proj1 (only_login_writes_table sample_decimal portal_accepts sample_course_plan
                   sample_data_json sample_cgpa GET_logout 1000 (json_request ∅)
                   five_attempts _)).
  discriminate.
Defined.

Lemma failed_login_keeps_session_witness :
  flask_session
    (refusing_serve POST_login 1000
       (json_request (credentials "21IT066" "guess"))
       (logged_in [subject_record "19Z301" "Calculus" 40 36])).2
  = flask_session (logged_in [subject_record "19Z301" "Calculus" 40 36]).
Proof.
  apply (failed_login_keeps_session sample_decimal portal_refuses sample_course_plan
           sample_data_json sample_cgpa 1000 (json_request (credentials "21IT066" "guess"))
           (logged_in [subject_record "19Z301" "Calculus" 40 36])).
  intros H. vm_compute in H. discriminate H.
Defined.

Lemma attendance_malformed_record_witness :
  sample_serve GET_attendance 1000 (json_request ∅)
    (logged_in [PDict (<["name" := PStr (text "19Z301")]> ∅)])
  = (mkResponse (jsonify (PDict
       (<["error" := PStr (text "Failed to fetch attendance data")]> ∅))) 500,
     logged_in [PDict (<["name" := PStr (text "19Z301")]> ∅)]).
Proof.
  destruct (attendance_malformed_record sample_decimal portal_accepts sample_course_plan
              sample_data_json sample_cgpa 1000 (json_request ∅)
              (logged_in [PDict (<["name" := PStr (text "19Z301")]> ∅)])
              [PDict (<["name" := PStr (text "19Z301")]> ∅)])
    as (_ & Hbad).
  - vm_compute. eauto.
  - reflexivity.
  - discriminate.
  - apply Hbad. intros H.
    inversion H as [|? ? [(d & x & n & Hd & Hx & _) _] _]. injection Hd as <-.
    vm_compute in Hx. discriminate Hx.
Defined.

Lemma attendance_totals_are_sums_witness :
  json_field
    (sample_serve GET_attendance 1000 (json_request ∅)
       (logged_in [subject_record "19Z301" "Calculus" 60 42;
                   subject_record "19Z302" "Physics" 40 28])).1
    "total_days" = Some (PInt 100).
Proof.
  destruct (attendance_totals_are_sums sample_decimal portal_accepts sample_course_plan
              sample_data_json sample_cgpa 1000 (json_request ∅)
              (logged_in [subject_record "19Z301" "Calculus" 60 42;
                          subject_record "19Z302" "Physics" 40 28])
              [subject_record "19Z301" "Calculus" 60 42;
               subject_record "19Z302" "Physics" 40 28]
              [60; 40] [42; 28])
    as (_ & Hsums).
  - vm_compute. eauto.
  - reflexivity.
  - discriminate.
  - do 2 (constructor; [eexists; split; reflexivity|]). constructor.
  - do 2 (constructor; [eexists; split; reflexivity|]). constructor.
  - destruct Hsums as [Hdays _]; [reflexivity | exact Hdays].
Defined.


Lemma bunkable_days_greatest_witness :
  ∃ percentage need bunkable,
    statistics (Int 100) (Int 90) = Returns (percentage, need, bunkable) ∧
    (py_lt percentage (Int 75) = false →
     3 * (100 + bunkable) ≤ 4 * 90 ∧
     ∀ m : Z, 3 * (100 + m) ≤ 4 * 90 → m ≤ bunkable).
Proof. apply (bunkable_days_greatest 100 90); lia. Defined.

Lemma json_login_ok_flag_witness :
  json_field
    (refusing_serve POST_login 1000
       (json_request (credentials "21IT066" "guess")) fresh).1 "ok"
  = Some (PBool false).
Proof.
  destruct (json_login_ok_flag sample_decimal portal_refuses sample_course_plan
              sample_data_json sample_cgpa 1000
              (json_request (credentials "21IT066" "guess")) fresh)
    as [[Hbody _] | [Hpage | [Hok _]]].
  - reflexivity.
  - discriminate Hbody.
  - vm_compute in Hpage. discriminate Hpage.
  - rewrite Hok. reflexivity.
Defined.

Lemma login_sets_permanence_witness :
  flask_session
    (sample_serve POST_login 1000
       (form_request (<["rollno" := text "21IT066"]>
                        (<["password" := text "secret"]>
                           (<["remember_me" := text "on"]> ∅))))
       fresh).2 !! "_permanent"
  = Some (PBool true).
Proof.
  destruct (login_sets_permanence sample_decimal portal_accepts sample_course_plan
              sample_data_json sample_cgpa 1000
              (form_request (<["rollno" := text "21IT066"]>
                               (<["password" := text "secret"]>
                                  (<["remember_me" := text "on"]> ∅))))
              fresh)
    as (rollno & password & remember_me & Hfields & Hperm & _).
  - reflexivity.
  - injection Hfields as <- <- <-. rewrite Hperm. reflexivity.
Defined.

Lemma percentage_range_witness :
  ∃ percentage need bunkable value,
    statistics (Int 100) (Int 70) = Returns (percentage, need, bunkable) ∧
    finite_value percentage = Returns value ∧
    (0 <= value <= 100)%Q.
Proof. apply (percentage_range 100 70); lia. Defined.

Lemma serve_all_session_consistent_witness :
  session_consistent
    (serve_all sample_decimal portal_accepts sample_course_plan sample_data_json sample_cgpa
       [(POST_login, 1000%Q, json_request (credentials "21IT066" "secret"));
        (GET_attendance, 1001%Q, json_request ∅);
        (GET_logout, 1002%Q, json_request ∅)]
       fresh).
Proof.
  apply (serve_all_session_consistent sample_decimal portal_accepts sample_course_plan
           sample_data_json sample_cgpa). apply fresh_consistent.
Defined.
